(** * unifi-route53-dns: the update orchestration of [main.go]

    A shallow embedding of the request validator, the change builder, the
    per-host Route53 update, the Pushover notifier and the orchestrator
    [ProcessIpChange], together with the parts of Go's standard library
    that decide their behaviour ([net.ParseIP], [net.IP.To4],
    [net.IP.String], [strconv.ParseBool], [http.Request.FormValue]). *)

From Stdlib Require Import ZArith Ascii String DecimalString Lia.
From stdpp Require Import base list strings gmap.

Open Scope string_scope.
Open Scope Z_scope.

(** ** Go values *)

(** A Go [error] is represented by its message; [None] is the nil error. *)
Definition error := string.

(** A fallible result: Go's [(T, error)] with exactly one side meaningful. *)
Inductive Result (A : Type) : Type :=
| Ok (a : A)
| Err (e : error).
Arguments Ok {A} a.
Arguments Err {A} e.

(** The value of a string byte, [int(s[i])]. *)
Definition byte_of (c : ascii) : Z := Z.of_N (N_of_ascii c).

(** [s[i]] for an index known to be in range; the zero byte otherwise. *)
Definition char_at (s : string) (i : Z) : ascii :=
  match String.get (Z.to_nat i) s with
  | Some c => c
  | None => Ascii.zero
  end.

(** [len(s)] *)
Definition len (s : string) : Z := Z.of_nat (String.length s).

(** [s[lo:hi]] *)
Definition slice (s : string) (lo hi : Z) : string :=
  String.substring (Z.to_nat lo) (Z.to_nat (hi - lo)) s.

(** The double-quote byte, and a string between two of them. *)
Definition dquote : string := String (ascii_of_N 34) "".
Definition quoted (s : string) : string := dquote ++ s ++ dquote.

Definition uint8 (x : Z) : Z := x mod 256.
Definition uint32 (x : Z) : Z := x mod 2 ^ 32.

(** ** [net/netip]: parsing of IP literals (Go 1.24, the toolchain of the
    Dockerfile) *)

Module netip.

Definition is_digit (c : ascii) : bool :=
  (48 <=? byte_of c) && (byte_of c <=? 57).

(** The loop of [parseIPv4Fields]: [rest] is [s[i:]], so that its head is
    [s[i]]. *)
Fixpoint parseIPv4Fields_loop (s rest : string) (i val pos digLen : Z)
    (fields : list Z) : Result (list Z) :=
  match rest with
  | EmptyString =>
      if pos <? 3 then Err "IPv4 address too short"
      else Ok (<[3%nat := uint8 val]> fields)
  | String c rest' =>
      if is_digit c then
        if (digLen =? 1) && (val =? 0) then
          Err "IPv4 field has octet with leading zero"
        else
          let val := val * 10 + byte_of c - 48 in
          let digLen := digLen + 1 in
          if 255 <? val then Err "IPv4 field has value >255"
          else parseIPv4Fields_loop s rest' (i + 1) val pos digLen fields
      else if Ascii.eqb c "." then
        if (i =? 0) || (i =? len s - 1) || Ascii.eqb (char_at s (i - 1)) "." then
          Err "IPv4 field must have at least one digit"
        else if pos =? 3 then Err "IPv4 address too long"
        else
          parseIPv4Fields_loop s rest' (i + 1) 0 (pos + 1) 0
            (<[Z.to_nat pos := uint8 val]> fields)
      else Err "unexpected character"
  end.

(** [parseIPv4Fields(in, off, end, fields)] *)
Definition parseIPv4Fields (input : string) (off end_ : Z) (fields : list Z)
    : Result (list Z) :=
  let s := slice input off end_ in
  parseIPv4Fields_loop s s 0 0 0 0 fields.

(** [parseIPv4]: the four bytes of the address. *)
Definition parseIPv4 (s : string) : Result (list Z) :=
  parseIPv4Fields s 0 (len s) [0; 0; 0; 0].

(** The value of a hexadecimal digit, when [c] is one. *)
Definition hex_value (c : ascii) : option Z :=
  let b := byte_of c in
  if (48 <=? b) && (b <=? 57) then Some (b - 48)
  else if (97 <=? b) && (b <=? 102) then Some (b - 97 + 10)
  else if (65 <=? b) && (b <=? 70) then Some (b - 65 + 10)
  else None.

(** The inner loop of [parseIPv6] that reads one hexadecimal group;
    [rest] is [s[off:]].  Returns [off] and [acc] at the loop's exit. *)
Fixpoint hex_group (rest : string) (off acc : Z) : Result (Z * Z) :=
  match rest with
  | EmptyString => Ok (off, acc)
  | String c rest' =>
      match hex_value c with
      | None => Ok (off, acc)
      | Some d =>
          let acc := uint32 (uint32 (Z.shiftl acc 4) + d) in
          if 3 <? off then Err "each group must have 4 or less digits"
          else if 65535 <? acc then Err "IPv6 field has value >=2^16"
          else hex_group rest' (off + 1) acc
      end
  end.

(** [strings.IndexByte]-like search, [-1] when the byte does not occur. *)
Fixpoint index_byte_from (s : string) (c : ascii) (i : Z) : Z :=
  match s with
  | EmptyString => -1
  | String d s' => if Ascii.eqb d c then i else index_byte_from s' c (i + 1)
  end.

Definition IndexByteString (s : string) (c : ascii) : Z := index_byte_from s c 0.

(** The state of the main loop of [parseIPv6]. *)
Record v6state := V6 {
  v6_s : string;        (* the unread input *)
  v6_i : Z;             (* bytes of [ip] filled so far *)
  v6_ellipsis : Z;      (* position of the ellipsis in [ip], -1 if none *)
  v6_ip : list Z        (* the 16 bytes *)
}.

(** The main loop of [parseIPv6]: [for i < 16 { ... }].  Every round that
    continues adds 2 to [i], so eight rounds are enough; [fuel] only makes
    the recursion structural. *)
Fixpoint parseIPv6_loop (fuel : nat) (input zone : string) (st : v6state)
    : Result v6state :=
  let '(V6 s i ellipsis ip) := st in
  if 16 <=? i then Ok st else
  match fuel with
  | O => Ok st
  | S fuel' =>
      match hex_group s 0 0 with
      | Err e => Err e
      | Ok (off, acc) =>
          if off =? 0 then
            Err "each colon-separated field must have at least one digit"
          else if (off <? len s) && Ascii.eqb (char_at s off) "." then
            if (ellipsis <? 0) && negb (i =? 12) then
              Err "embedded IPv4 address must replace the final 2 fields of the address"
            else if 16 <? i + 4 then
              Err "too many hex fields to fit an embedded IPv4 at the end of the address"
            else
              let end_ := len input in
              let end_ := if 0 <? len zone then end_ - (len zone + 1) else end_ in
              let sub := take 4 (drop (Z.to_nat i) ip) in
              match parseIPv4Fields input (end_ - len s) end_ sub with
              | Err e => Err e
              | Ok sub' =>
                  Ok (V6 "" (i + 4) ellipsis
                        (take (Z.to_nat i) ip ++ sub' ++ drop (Z.to_nat i + 4) ip)%list)
              end
          else
            let ip := <[Z.to_nat i := uint8 (Z.shiftr acc 8)]> ip in
            let ip := <[Z.to_nat (i + 1) := uint8 acc]> ip in
            let i := i + 2 in
            let s := slice s off (len s) in
            if len s =? 0 then Ok (V6 s i ellipsis ip)
            else if negb (Ascii.eqb (char_at s 0) ":") then
              Err "unexpected character, want colon"
            else if len s =? 1 then
              Err "colon must be followed by more characters"
            else
              let s := slice s 1 (len s) in
              if Ascii.eqb (char_at s 0) ":" then
                if 0 <=? ellipsis then Err "multiple :: in address"
                else
                  let ellipsis := i in
                  let s := slice s 1 (len s) in
                  if len s =? 0 then Ok (V6 s i ellipsis ip)
                  else parseIPv6_loop fuel' input zone (V6 s i ellipsis ip)
              else parseIPv6_loop fuel' input zone (V6 s i ellipsis ip)
      end
  end.

(** [for j := i - 1; j >= ellipsis; j-- { ip[j+n] = ip[j] }] followed by
    [clear(ip[ellipsis : ellipsis+n])]. *)
Definition expand_ellipsis (ip : list Z) (i ellipsis : Z) : list Z :=
  let n := 16 - i in
  let moved :=
    foldl (fun ip j => <[Z.to_nat (j + n) := ip !!! Z.to_nat j]> ip) ip
          (reverse (seqZ ellipsis (i - ellipsis))) in
  foldl (fun ip j => <[Z.to_nat j := 0]> ip) moved (seqZ ellipsis n).

(** [parseIPv6]: the sixteen bytes of the address and its zone. *)
Definition parseIPv6 (input : string) : Result (list Z * string) :=
  let s := input in
  let i := IndexByteString s "%" in
  let split_ok :=
    if negb (i =? -1) then
      let zone := slice s (i + 1) (len s) in
      if String.eqb zone "" then Err "zone must be a non-empty string"
      else Ok (slice s 0 i, zone)
    else Ok (s, "") in
  match split_ok with
  | Err e => Err e
  | Ok (s, zone) =>
      let ip := replicate 16 0 in
      let leading :=
        (2 <=? len s) && Ascii.eqb (char_at s 0) ":" && Ascii.eqb (char_at s 1) ":" in
      let ellipsis := if leading then 0 else -1 in
      let s := if leading then slice s 2 (len s) else s in
      if leading && (len s =? 0) then Ok (replicate 16 0, zone)
      else
        match parseIPv6_loop 8 input zone (V6 s 0 ellipsis ip) with
        | Err e => Err e
        | Ok (V6 s i ellipsis ip) =>
            if negb (len s =? 0) then Err "trailing garbage after address"
            else if i <? 16 then
              if ellipsis <? 0 then Err "address string too short"
              else Ok (expand_ellipsis ip i ellipsis, zone)
            else if 0 <=? ellipsis then
              Err "the :: must expand to at least one field of zeros"
            else Ok (ip, zone)
        end
  end.

(** A parsed address: [Addr] with its family, as [ParseAddr] builds it. *)
Inductive Addr :=
| Addr4 (b : list Z)
| Addr6 (b : list Z) (zone : string).

(** The dispatch loop of [ParseAddr] on the first of ['.'], [':'], ['%']. *)
Fixpoint ParseAddr_scan (s rest : string) : Result Addr :=
  match rest with
  | EmptyString => Err "unable to parse IP"
  | String c rest' =>
      if Ascii.eqb c "." then
        match parseIPv4 s with Ok b => Ok (Addr4 b) | Err e => Err e end
      else if Ascii.eqb c ":" then
        match parseIPv6 s with Ok (b, z) => Ok (Addr6 b z) | Err e => Err e end
      else if Ascii.eqb c "%" then Err "missing IPv6 address"
      else ParseAddr_scan s rest'
  end.

Definition ParseAddr (s : string) : Result Addr := ParseAddr_scan s s.

Definition Zone (a : Addr) : string :=
  match a with Addr4 _ => "" | Addr6 _ z => z end.

(** [Addr.As16]: an IPv4 address becomes its IPv4-mapped IPv6 form. *)
Definition As16 (a : Addr) : list Z :=
  match a with
  | Addr4 b => (replicate 10 0 ++ [255; 255] ++ b)%list
  | Addr6 b _ => b
  end.

End netip.

(** ** [net]: the [IP] byte slice *)

Module net.

(** [net.IP] is a byte slice; [option IP] adds the nil slice where the code
    tests for it. *)
Definition IP := list Z.

(** [net.ParseIP]: the 16-byte form of the address, or nil.  An address
    with a zone is refused. *)
Definition ParseIP (s : string) : option IP :=
  match netip.ParseAddr s with
  | Err _ => None
  | Ok addr =>
      if negb (String.eqb (netip.Zone addr) "") then None
      else Some (netip.As16 addr)
  end.

Definition isZeros (p : list Z) : bool := forallb (Z.eqb 0) p.

(** [IP.To4]: the 4-byte form of an IPv4 address, nil for anything else.
    A 16-byte address is an IPv4 address when it is IPv4-mapped:
    ten zero bytes, then [0xff 0xff]. *)
Definition To4 (ip : option IP) : option IP :=
  match ip with
  | None => None
  | Some ip =>
      if (length ip =? 4)%nat then Some ip
      else if (length ip =? 16)%nat && isZeros (take 10 ip)
              && (ip !!! 10%nat =? 255) && (ip !!! 11%nat =? 255)
      then Some (drop 12 ip)
      else None
  end.

(** One decimal digit, [digits[d]]. *)
Definition digit (d : Z) : string :=
  String (ascii_of_N (Z.to_N (48 + d))) "".

(** [appendDecimal] of [netip], for a [uint8]. *)
Definition appendDecimal (b : string) (x : Z) : string :=
  let b := if 100 <=? x then b ++ digit (x / 100) else b in
  let b := if 10 <=? x then b ++ digit (x / 10 mod 10) else b in
  b ++ digit (x mod 10).

(** [Addr.string4]: dotted-decimal notation of four bytes. *)
Definition string4 (p : list Z) : string :=
  let ret := appendDecimal "" (p !!! 0%nat) in
  let ret := appendDecimal (ret ++ ".") (p !!! 1%nat) in
  let ret := appendDecimal (ret ++ ".") (p !!! 2%nat) in
  appendDecimal (ret ++ ".") (p !!! 3%nat).

(** A hexadecimal digit, ["0123456789abcdef"[d]]. *)
Definition hexdigit (d : Z) : string :=
  if d <? 10 then digit d else String (ascii_of_N (Z.to_N (97 + (d - 10)))) "".

(** [appendHex] of [netip], for a [uint16]: no leading zeros. *)
Definition appendHex (b : string) (x : Z) : string :=
  let b := if 4096 <=? x then b ++ hexdigit (Z.shiftr x 12) else b in
  let b := if 256 <=? x then b ++ hexdigit (Z.land (Z.shiftr x 8) 15) else b in
  let b := if 16 <=? x then b ++ hexdigit (Z.land (Z.shiftr x 4) 15) else b in
  b ++ hexdigit (Z.land x 15).

(** The eight 16-bit groups of a 16-byte address, [v6u16]. *)
Fixpoint v6groups (ip : list Z) : list Z :=
  match ip with
  | hi :: lo :: ip' => (hi * 256 + lo) :: v6groups ip'
  | _ => []
  end.

(** [for j < 8 && v6u16(j) == 0 { j++ }] from [j = i], on the groups from
    [i] on. *)
Fixpoint zero_run_end (groups_from_i : list Z) (j : Z) : Z :=
  match groups_from_i with
  | 0 :: rest => zero_run_end rest (j + 1)
  | _ => j
  end.

(** The first loop of [appendTo6]: the longest run of at least two zero
    groups, the first one on a tie. *)
Definition longest_zero_run (g : list Z) : Z * Z :=
  foldl (fun '(zeroStart, zeroEnd) i =>
           let j := zero_run_end (drop (Z.to_nat i) g) i in
           let l := j - i in
           if (2 <=? l) && (uint8 (zeroEnd - zeroStart) <? l) then (i, j)
           else (zeroStart, zeroEnd))
        (255, 255) (seqZ 0 8).

(** The second loop of [appendTo6]. *)
Fixpoint appendTo6_loop (fuel : nat) (g : list Z) (zeroStart zeroEnd i : Z)
    (ret : string) : string :=
  match fuel with
  | O => ret
  | S fuel' =>
      if 8 <=? i then ret
      else if i =? zeroStart then
        let ret := ret ++ "::" in
        let i := zeroEnd in
        if 8 <=? i then ret
        else appendTo6_loop fuel' g zeroStart zeroEnd (i + 1)
               (appendHex ret (g !!! Z.to_nat i))
      else
        let ret := if 0 <? i then ret ++ ":" else ret in
        appendTo6_loop fuel' g zeroStart zeroEnd (i + 1)
          (appendHex ret (g !!! Z.to_nat i))
  end.

(** [Addr.string6] of an address without zone. *)
Definition string6 (ip : list Z) : string :=
  let g := v6groups ip in
  let '(zeroStart, zeroEnd) := longest_zero_run g in
  appendTo6_loop 8 g zeroStart zeroEnd 0 "".

(** [hexString]: two lower-case hexadecimal digits per byte. *)
Fixpoint hexString (b : list Z) : string :=
  match b with
  | [] => ""
  | x :: b' => hexdigit (Z.shiftr x 4) ++ hexdigit (Z.land x 15) ++ hexString b'
  end.

(** [IP.String] *)
Definition String_ (ip : option IP) : string :=
  match ip with
  | None | Some [] => "<nil>"
  | Some b =>
      if negb (length b =? 4)%nat && negb (length b =? 16)%nat then
        "?" ++ hexString b
      else
        match To4 ip with
        | Some p4 => string4 p4
        | None => string6 b
        end
  end.

End net.

(** ** [strconv.ParseBool] *)

Module strconv.

Definition ParseBool (str : string) : bool * option error :=
  if String.eqb str "1" || String.eqb str "t" || String.eqb str "T"
     || String.eqb str "true" || String.eqb str "TRUE" || String.eqb str "True"
  then (true, None)
  else if String.eqb str "0" || String.eqb str "f" || String.eqb str "F"
     || String.eqb str "false" || String.eqb str "FALSE" || String.eqb str "False"
  then (false, None)
  else (false, Some ("strconv.ParseBool: parsing " ++ quoted str ++ ": invalid syntax")).

End strconv.

(** ** The data model of [main.go] *)

Definition Hostname := string.
Definition ZoneID := string.
Definition TTL := Z.

Record HostConfig := {
  ZoneId : string;
  Ttl : Z;
  AdditionalHosts : list string
}.

Record PushoverConfig := {
  ApiToken : string;
  RecipientKey : string
}.

Record AppConfig := {
  Port : Z;
  Records : gmap string HostConfig;
  Pushover : PushoverConfig
}.

Record UpdateRequest := {
  Host : string;
  IP : string;
  Commit : bool
}.

Definition getHostname (r : UpdateRequest) : Hostname := Host r.

(** [validateIp]: the 4-byte address, or the error. *)
Definition validateIp (r : UpdateRequest) : Result net.IP :=
  match net.To4 (net.ParseIP (IP r)) with
  | None => Err ("'" ++ IP r ++ "' is not a valid IpV4 address")
  | Some ip => Ok ip
  end.

(** ** The Route53 and Pushover values the program builds *)

Module types.

Inductive ChangeAction := ChangeActionCreate | ChangeActionDelete | ChangeActionUpsert.

Inductive RRType := RRTypeSoa | RRTypeA | RRTypeTxt | RRTypeNs | RRTypeCname
                  | RRTypeMx | RRTypeAaaa.

Record ResourceRecord := { Value : string }.

Record ResourceRecordSet := {
  Name : string;
  Type_ : RRType;
  TTL_ : Z;
  ResourceRecords : list ResourceRecord
}.

Record Change := {
  Action : ChangeAction;
  ResourceRecordSet_ : ResourceRecordSet
}.

Record ChangeBatch := {
  Changes : list Change;
  Comment : string
}.

End types.

Module route53.

Record ChangeResourceRecordSetsInput := {
  ChangeBatch : types.ChangeBatch;
  HostedZoneId : string
}.

(** The provider's answer is opaque to the program, which only logs it. *)
Record ChangeResourceRecordSetsOutput := {
  ChangeInfoId : string;
  ChangeInfoStatus : string
}.

End route53.

Module pushover.

Definition PriorityNormal : Z := 0.

Record Message := {
  Message_ : string;
  Priority : Z
}.

(** Opaque to the program, which only logs it. *)
Record Response := {
  Status : Z;
  ID : string
}.

End pushover.

(** ** Effects: the log, the remote calls and the clock *)

Inductive Level := DebugLevel | InfoLevel | WarnLevel | ErrorLevel | FatalLevel.

(** The fields a zerolog event of this program carries. *)
Inductive Field :=
| FRequest (key : string) (r : UpdateRequest)
| FErr (e : error)
| FStr (key val : string)
| FInput (key : string) (i : route53.ChangeResourceRecordSetsInput)
| FOutput (key : string) (o : option route53.ChangeResourceRecordSetsOutput)
| FResponse (key : string) (r : option pushover.Response).

(** What the program does to the outside, in order.  [EvLog] is a log call
    with its level (whether zerolog prints it depends on the process-wide
    level set in [main]); [EvRoute53] is one call of
    [client.ChangeResourceRecordSets] with what it returned; [EvPushover]
    is one call of [SendMessage] with what it returned. *)
Inductive Event :=
| EvLog (lvl : Level) (fields : list Field) (msg : string)
| EvRoute53 (input : route53.ChangeResourceRecordSetsInput)
            (output : option route53.ChangeResourceRecordSetsOutput)
            (err : option error)
| EvPushover (token recipient : string) (m : pushover.Message)
             (response : option pushover.Response) (err : option error).

(** The Route53 client: its answer may depend on everything that happened
    before the call. *)
Record Client := {
  ChangeResourceRecordSets :
    list Event -> route53.ChangeResourceRecordSetsInput ->
    option route53.ChangeResourceRecordSetsOutput * option error
}.

(** The rest of the outside world: the clock, read as
    [time.Now().String()], and the Pushover transport. *)
Record World := {
  time_Now : list Event -> string;
  SendMessage :
    list Event -> string -> pushover.Message -> string ->
    option pushover.Response * option error
}.

(** A computation reads the events so far and returns its value with the
    events extended. *)
Definition M (A : Type) : Type := list Event -> A * list Event.

Definition ret {A} (a : A) : M A := fun h => (a, h).
Definition bind {A B} (m : M A) (k : A -> M B) : M B :=
  fun h => let '(a, h') := m h in k a h'.
Definition emit (e : Event) : M unit := fun h => (tt, (h ++ [e])%list).
Definition history : M (list Event) := fun h => (h, h).

Notation "'do' x <- m ; k" := (bind m (fun x => k))
  (at level 10, x name, m at level 100, k at level 200).
Notation "m ;; k" := (bind m (fun _ => k))
  (at level 100, k at level 200, right associativity).

(** [for _, x := range l { body x }] *)
Fixpoint for_range {A} (l : list A) (body : A -> M unit) : M unit :=
  match l with
  | [] => ret tt
  | x :: l' => body x ;; for_range l' body
  end.

Definition log (lvl : Level) (fields : list Field) (msg : string) : M unit :=
  emit (EvLog lvl fields msg).

(** ** The program *)

Section Program.

Variable world : World.

Definition NotifyPushover (config : PushoverConfig) (host : string)
    (err : option error) : M unit :=
  if String.eqb (ApiToken config) "" || String.eqb (RecipientKey config) "" then
    log InfoLevel [] "Pushover notification not configured."
  else
    let msgStr := "IP Updated for: " ++ host in
    let msgStr :=
      match err with
      | Some _ => "Error: IP Update Failed for: " ++ host
      | None => msgStr
      end in
    let message :=
      {| pushover.Message_ := msgStr;
         pushover.Priority := pushover.PriorityNormal |} in
    do h <- history;
    let '(response, err) :=
      SendMessage world h (ApiToken config) message (RecipientKey config) in
    emit (EvPushover (ApiToken config) (RecipientKey config) message response err) ;;
    (match err with
     | Some e => log ErrorLevel [FErr e] "Error publishing Pushover Notification"
     | None => ret tt
     end) ;;
    log InfoLevel [FResponse "PushoverResponse" response] "Pushover Response".

Definition MakeChangeRequest (zoneId : ZoneID) (hostname : Hostname)
    (ip : option net.IP) (ttl : TTL) : M route53.ChangeResourceRecordSetsInput :=
  let resourceHostName := hostname ++ "." in
  let resourceTtl := ttl in
  let resourceZoneId := zoneId in
  let resourceIp := net.String_ ip in
  let comment := "Unifi Updated IP Address" in
  do h <- history;
  let lastUpdatedMsg := quoted ("Last Updated: " ++ time_Now world h) in
  ret {| route53.ChangeBatch :=
           {| types.Changes :=
                [ {| types.Action := types.ChangeActionUpsert;
                     types.ResourceRecordSet_ :=
                       {| types.Name := resourceHostName;
                          types.Type_ := types.RRTypeA;
                          types.TTL_ := resourceTtl;
                          types.ResourceRecords := [ {| types.Value := resourceIp |} ] |} |};
                  {| types.Action := types.ChangeActionUpsert;
                     types.ResourceRecordSet_ :=
                       {| types.Name := resourceHostName;
                          types.Type_ := types.RRTypeTxt;
                          types.TTL_ := resourceTtl;
                          types.ResourceRecords := [ {| types.Value := lastUpdatedMsg |} ] |} |} ];
              types.Comment := comment |};
         route53.HostedZoneId := resourceZoneId |}.

Definition UpdateRoute53Record (client : Client) (hostConfig : HostConfig)
    (hostname : Hostname) (ip : option net.IP) (commit : bool) : M (option error) :=
  let zoneId := ZoneId hostConfig in
  let ttl := Ttl hostConfig in
  do input <- MakeChangeRequest zoneId hostname ip ttl;
  log DebugLevel [FInput "ChangeResourcesRecordSetInput" input] "" ;;
  if commit then
    do h <- history;
    let '(output, err) := ChangeResourceRecordSets client h input in
    emit (EvRoute53 input output err) ;;
    match err with
    | Some e =>
        log ErrorLevel
          [FErr e; FOutput "ChangeResourcesRecordSetOutput" output;
           FInput "ChangeResourcesRecordSetInput" input]
          "Error Updating Route53 RecordSets" ;;
        ret (Some e)
    | None =>
        log InfoLevel
          [FStr "hostname" hostname; FOutput "ChangeResourcesRecordSetOutput" output]
          "RecordSet updated successfully." ;;
        ret None
    end
  else ret None.

Definition ProcessIpChange (client : Client) (appConfig : AppConfig)
    (request : UpdateRequest) : M unit :=
  match validateIp request with
  | Err e => log ErrorLevel [FRequest "request" request; FErr e] "Invalid IP specified"
  | Ok ip =>
      match Records appConfig !! Host request with
      | Some hostConfig =>
          do err <- UpdateRoute53Record client hostConfig (getHostname request)
                      (Some ip) (Commit request);
          NotifyPushover (Pushover appConfig) (Host request) err ;;
          match err with
          | Some _ =>
              for_range (AdditionalHosts hostConfig) (fun additionalHost =>
                let hostname : Hostname := additionalHost in
                do err <- UpdateRoute53Record client hostConfig hostname
                            (Some ip) (Commit request);
                match err with
                | Some _ => NotifyPushover (Pushover appConfig) hostname err
                | None => ret tt
                end)
          | None => ret tt
          end
      | None =>
          log ErrorLevel [FRequest "request" request]
            "Hostname not found in config, ignoring"
      end
  end.

(** [req.Form] after [req.ParseForm()]: a [url.Values]. *)
Definition Form := gmap string (list string).

(** [req.FormValue(key)]: the first value of the key, or the empty string. *)
Definition FormValue (form : Form) (key : string) : string :=
  match form !! key with
  | Some (v :: _) => v
  | _ => ""
  end.

(** The request [nicUpdateHandler] builds from the form. *)
Definition updateRequest_of (form : Form) : UpdateRequest :=
  let commitChanges := true in
  let commitChanges :=
    match form !! "commit" with
    | Some _ => fst (strconv.ParseBool (FormValue form "commit"))
    | None => commitChanges
    end in
  {| Host := FormValue form "hostname";
     IP := FormValue form "ip";
     Commit := commitChanges |}.

(** The handler of [/nic/update] in [main]. *)
Definition nicUpdateHandler (r53Client : Client) (appConfig : AppConfig)
    (form : Form) : M unit :=
  let updateRequest := updateRequest_of form in
  log InfoLevel [FRequest "request" updateRequest] "Received Update Request" ;;
  ProcessIpChange r53Client appConfig updateRequest.

(** The fallback loop over the additional hosts, as [ProcessIpChange]
    runs it once the primary update has failed. *)
Definition fanout (client : Client) (appConfig : AppConfig) (hostConfig : HostConfig)
    (ip : net.IP) (commit : bool) (hosts : list string) : M unit :=
  for_range hosts (fun additionalHost =>
    let hostname : Hostname := additionalHost in
    do err <- UpdateRoute53Record client hostConfig hostname (Some ip) commit;
    match err with
    | Some _ => NotifyPushover (Pushover appConfig) hostname err
    | None => ret tt
    end).

End Program.

(** ** What a trace shows *)

(** The calls of the remote DNS client, with the error each returned. *)
Definition remote_call (e : Event)
    : option (route53.ChangeResourceRecordSetsInput * option error) :=
  match e with
  | EvRoute53 input _ err => Some (input, err)
  | _ => None
  end.

Definition remote_calls (t : list Event) := omap remote_call t.

(** The change payloads that were built and logged: each run of
    [UpdateRoute53Record] logs its payload once, at debug level, before it
    looks at [commit]. *)
Definition logged_payload (e : Event) : option route53.ChangeResourceRecordSetsInput :=
  match e with
  | EvLog DebugLevel [FInput _ input] _ => Some input
  | _ => None
  end.

Definition logged_payloads (t : list Event) := omap logged_payload t.

(** What one run of the notifier leaves in the trace: the message handed
    to the Pushover transport, or the logged no-op when the credentials
    are absent. *)
Inductive Notice :=
| Sent (message : string)
| NotConfigured.

Definition notice_of (e : Event) : option Notice :=
  match e with
  | EvPushover _ _ m _ _ => Some (Sent (pushover.Message_ m))
  | EvLog InfoLevel [] msg =>
      if String.eqb msg "Pushover notification not configured." then Some NotConfigured
      else None
  | _ => None
  end.

Definition notifications (t : list Event) := omap notice_of t.

Definition configured (config : PushoverConfig) : bool :=
  negb (String.eqb (ApiToken config) "") && negb (String.eqb (RecipientKey config) "").

(** The notice that reports the outcome [err] of [host]. *)
Definition report (config : PushoverConfig) (host : string) (err : option error)
    : Notice :=
  if configured config then
    match err with
    | None => Sent ("IP Updated for: " ++ host)
    | Some _ => Sent ("Error: IP Update Failed for: " ++ host)
    end
  else NotConfigured.

(** An upsert of one record set with a single value. *)
Definition upsert (type : types.RRType) (name : string) (ttl : Z) (value : string)
    : types.Change :=
  {| types.Action := types.ChangeActionUpsert;
     types.ResourceRecordSet_ :=
       {| types.Name := name; types.Type_ := type; types.TTL_ := ttl;
          types.ResourceRecords := [ {| types.Value := value |} ] |} |}.

(** [input] is the change of [hostname] to [ip] in zone [zoneId]: the A
    record and the audit TXT record, whatever the time stamp. *)
Definition is_change_for (zoneId hostname ip : string) (ttl : Z)
    (input : route53.ChangeResourceRecordSetsInput) : Prop :=
  route53.HostedZoneId input = zoneId /\
  exists stamp,
    types.Changes (route53.ChangeBatch input) =
      [ upsert types.RRTypeA (hostname ++ ".") ttl ip;
        upsert types.RRTypeTxt (hostname ++ ".") ttl stamp ].

(** What the outcome [err] of the primary update entails for the rest of
    the run: [calls] are the remote calls of the fan-out. *)
Definition fanout_calls (hostConfig : HostConfig) (ip : net.IP) (err : option error)
    (calls : list (route53.ChangeResourceRecordSetsInput * option error)) : Prop :=
  match err with
  | Some _ =>
      Forall2 (fun host call =>
                 is_change_for (ZoneId hostConfig) host (net.String_ (Some ip))
                   (Ttl hostConfig) (fst call))
              (AdditionalHosts hostConfig) calls
  | None => calls = []
  end.

(** The notices the fan-out owes: one per additional host whose own update
    failed, in order. *)
Definition failure_notices (config : PushoverConfig)
    (outcomes : list (string * option error)) : list Notice :=
  omap (fun '(host, err) =>
          match err with
          | Some e => Some (report config host (Some e))
          | None => None
          end) outcomes.

(** ** The validator's rules as the specification words them *)

(** The decimal notation of a number, as the Standard Library writes it:
    no sign, no leading zero. *)
Definition decimal (x : Z) : string := NilEmpty.string_of_uint (N.to_uint (Z.to_N x)).

(** [s] is the dotted-decimal notation of the four bytes [ip]: four
    decimal numbers from 0 to 255 with a dot between them. *)
Definition dotted_decimal (s : string) (ip : list Z) : Prop :=
  exists a b c d,
    ip = [a; b; c; d] /\
    0 <= a <= 255 /\ 0 <= b <= 255 /\ 0 <= c <= 255 /\ 0 <= d <= 255 /\
    s = decimal a ++ "." ++ decimal b ++ "." ++ decimal c ++ "." ++ decimal d.

(** [s] has the byte [c]. *)
Fixpoint has_byte (c : ascii) (s : string) : bool :=
  match s with
  | EmptyString => false
  | String x s' => Ascii.eqb x c || has_byte c s'
  end.

(** The IPv4-mapped IPv6 address of four bytes, [::ffff:a.b.c.d]. *)
Definition v4mapped (ip : list Z) : list Z := (replicate 10 0 ++ [255; 255] ++ ip)%list.

(** The claimed rule for [commit]: absent means [true]; present, it has to
    parse as a boolean, and the request is refused otherwise. *)
Definition spec_commit (form : Form) : Result bool :=
  match form !! "commit" with
  | None => Ok true
  | Some _ =>
      match strconv.ParseBool (FormValue form "commit") with
      | (b, None) => Ok b
      | (_, Some e) => Err e
      end
  end.

(** ** Definitions the proofs use *)

(** One octet as Go prints it. *)
Definition octet (x : Z) : string := net.appendDecimal "" x.

(** [s] is what Go prints for the four bytes [ip]. *)
Definition printed_quad (s : string) (ip : list Z) : Prop :=
  exists a b c d,
    ip = [a; b; c; d] /\
    0 <= a <= 255 /\ 0 <= b <= 255 /\ 0 <= c <= 255 /\ 0 <= d <= 255 /\
    s = octet a ++ "." ++ octet b ++ "." ++ octet c ++ "." ++ octet d.

(** The byte of the decimal digit [d]. *)
Definition digit_char (d : Z) : ascii := ascii_of_N (Z.to_N (48 + d)).

(** The same loop, written on the unread input alone: the three index
    tests at a dot say that the current octet has no digit yet or that
    nothing follows the dot. *)
Fixpoint scan (rest : string) (val pos digLen : Z) (fields : list Z)
    : Result (list Z) :=
  match rest with
  | EmptyString =>
      if pos <? 3 then Err "IPv4 address too short"
      else Ok (<[3%nat := uint8 val]> fields)
  | String c rest' =>
      if netip.is_digit c then
        if (digLen =? 1) && (val =? 0) then
          Err "IPv4 field has octet with leading zero"
        else if 255 <? val * 10 + byte_of c - 48 then Err "IPv4 field has value >255"
        else scan rest' (val * 10 + byte_of c - 48) pos (digLen + 1) fields
      else if Ascii.eqb c "." then
        if (digLen =? 0) || (len rest' =? 0) then
          Err "IPv4 field must have at least one digit"
        else if pos =? 3 then Err "IPv4 address too long"
        else scan rest' 0 (pos + 1) 0 (<[Z.to_nat pos := uint8 val]> fields)
      else Err "unexpected character"
  end.

(** The octets that follow the current one, each after its dot. *)
Fixpoint dotted (xs : list Z) : string :=
  match xs with
  | [] => ""
  | x :: xs' => "." ++ octet x ++ dotted xs'
  end.

(** [fields[pos] = v0; fields[pos+1] = v1; ...] *)
Fixpoint fill (fields : list Z) (pos : Z) (vs : list Z) : list Z :=
  match vs with
  | [] => fields
  | v :: vs' => fill (<[Z.to_nat pos := v]> fields) (pos + 1) vs'
  end.

(** The digits of the current octet read so far: none, or the decimal
    notation of [val]. *)
Definition reading (ctx : string) (val digLen : Z) : Prop :=
  (digLen = 0 /\ val = 0 /\ ctx = "") \/
  (digLen = len ctx /\ 0 <= val <= 255 /\ ctx = octet val).

(** ** Sample worlds *)

Module Sample.

Definition clock : list Event -> string := fun _ => "2025-01-01 00:00:00 +0000 UTC".

Definition world : World :=
  {| time_Now := clock; SendMessage := fun _ _ _ _ => (None, None) |}.

(** A client whose every call fails. *)
Definition failing : Client :=
  {| ChangeResourceRecordSets := fun _ _ => (None, Some "AccessDenied") |}.

(** A client whose every call succeeds. *)
Definition working : Client :=
  {| ChangeResourceRecordSets := fun _ _ =>
       (Some {| route53.ChangeInfoId := "C1"; route53.ChangeInfoStatus := "PENDING" |},
        None) |}.

(** A client whose first call fails and whose later calls succeed. *)
Definition failing_once : Client :=
  {| ChangeResourceRecordSets := fun h _ =>
       match remote_calls h with
       | [] => (None, Some "Throttling")
       | _ => (Some {| route53.ChangeInfoId := "C2"; route53.ChangeInfoStatus := "PENDING" |},
               None)
       end |}.

Definition example_com : HostConfig :=
  {| ZoneId := "Z1"; Ttl := 300; AdditionalHosts := ["backup.example.com"] |}.

Definition config : AppConfig :=
  {| Port := 8080;
     Records := {[ "example.com" := example_com ]};
     Pushover := {| ApiToken := "token"; RecipientKey := "user" |} |}.

Definition request (ip : string) (commit : bool) : UpdateRequest :=
  {| Host := "example.com"; IP := ip; Commit := commit |}.

End Sample.

(** ** More observations of a trace *)

(** The calls of the Pushover transport: token, recipient and message. *)
Definition sent_message (e : Event) : option (string * string * pushover.Message) :=
  match e with
  | EvPushover token recipient m _ _ => Some (token, recipient, m)
  | _ => None
  end.

Definition sent_messages (t : list Event) := omap sent_message t.

(** The text of the notification about [host]: it tells success from
    failure and nothing else. *)
Definition notification_text (host : string) (err : option error) : string :=
  match err with
  | None => "IP Updated for: " ++ host
  | Some _ => "Error: IP Update Failed for: " ++ host
  end.

(** ** [strings]: the functions [EnvVarTransformer] calls *)

Module strings.

(** [strings.HasPrefix] *)
Definition HasPrefix (s prefix : string) : bool :=
  (len prefix <=? len s) && String.eqb (slice s 0 (len prefix)) prefix.

(** [strings.TrimPrefix] *)
Definition TrimPrefix (s prefix : string) : string :=
  if HasPrefix s prefix then slice s (len prefix) (len s) else s.

Definition is_upper (c : ascii) : bool := (65 <=? byte_of c) && (byte_of c <=? 90).

(** The first loop of [strings.ToLower]: is the string ASCII, and has it
    an upper-case letter before its first non-ASCII byte. *)
Fixpoint ToLower_scan (rest : string) (hasUpper : bool) : bool * bool :=
  match rest with
  | EmptyString => (true, hasUpper)
  | String c rest' =>
      if 128 <=? byte_of c then (false, hasUpper)
      else ToLower_scan rest' (hasUpper || is_upper c)
  end.

(** The second loop of [strings.ToLower], on an ASCII string: [b] is the
    builder, [pos] the start of the bytes not yet copied, [rest] is
    [s[i:]]. *)
Fixpoint ToLower_loop (s rest : string) (i pos : Z) (b : string) : string * Z :=
  match rest with
  | EmptyString => (b, pos)
  | String c rest' =>
      if is_upper c then
        let c := ascii_of_N (Z.to_N (uint8 (byte_of c + (97 - 65)))) in
        let b := if pos <? i then b ++ slice s pos i else b in
        let b := b ++ String c "" in
        ToLower_loop s rest' (i + 1) (i + 1) b
      else ToLower_loop s rest' (i + 1) pos b
  end.

(** [strings.ToLower]; [mapLower] is [Map(unicode.ToLower, s)], the path
    of a string with a byte outside ASCII. *)
Definition ToLower (mapLower : string -> string) (s : string) : string :=
  let '(isASCII, hasUpper) := ToLower_scan s false in
  if isASCII then
    if negb hasUpper then s
    else
      let '(b, pos) := ToLower_loop s s 0 0 "" in
      if pos <? len s then b ++ slice s pos (len s) else b
  else mapLower s.

(** [strings.Count(s, substr)] for a [substr] of one byte. *)
Fixpoint Count (s : string) (c : ascii) : Z :=
  match s with
  | EmptyString => 0
  | String x s' => (if Ascii.eqb x c then 1 else 0) + Count s' c
  end.

(** The loop of [strings.Replace] for an [old] of one byte: [n] rounds,
    each copying up to the next [old] and writing [new]. *)
Fixpoint Replace_loop (n : nat) (s : string) (old : ascii) (new : string)
    (start : Z) (b : string) : string * Z :=
  match n with
  | O => (b, start)
  | S n' =>
      let j := start + netip.IndexByteString (slice s start (len s)) old in
      let b := b ++ slice s start j in
      let b := b ++ new in
      Replace_loop n' s old new (j + 1) b
  end.

(** [strings.ReplaceAll(s, old, new)] for an [old] of one byte. *)
Definition ReplaceAll (s : string) (old : ascii) (new : string) : string :=
  if String.eqb (String old "") new then s
  else
    let m := Count s old in
    if m =? 0 then s
    else
      let '(b, start) := Replace_loop (Z.to_nat m) s old new 0 "" in
      b ++ slice s start (len s).

End strings.

(** ** The environment overrides of [main.go] *)

Definition ENV_PREFIX : string := "UNIFI_R53_DNS_".

(** [EnvVarTransformer]: the configuration key of an environment variable,
    and its value.  [mapLower] is the Unicode path of [strings.ToLower]. *)
Definition EnvVarTransformer (mapLower : string -> string) (k v : string)
    : string * string :=
  let k :=
    strings.ReplaceAll
      (strings.ToLower mapLower (strings.TrimPrefix k ENV_PREFIX)) "_" "." in
  (k, v).

(** [f] on every byte. *)
Fixpoint bytewise (f : ascii -> ascii) (s : string) : string :=
  match s with
  | EmptyString => ""
  | String c s' => String (f c) (bytewise f s')
  end.

(** Every byte of [s] passes [p]. *)
Fixpoint all_bytes (p : ascii -> bool) (s : string) : bool :=
  match s with
  | EmptyString => true
  | String c s' => p c && all_bytes p s'
  end.

Definition is_ascii_byte (c : ascii) : bool := byte_of c <? 128.

(** An upper-case ASCII letter becomes the lower-case one. *)
Definition lower_byte (c : ascii) : ascii :=
  if strings.is_upper c then ascii_of_N (Z.to_N (byte_of c + 32)) else c.

(** The byte of a configuration key for the byte [c] of a variable name. *)
Definition key_byte (c : ascii) : ascii :=
  if Ascii.eqb c "_" then "."%char else lower_byte c.

(** [new] for [old], every other byte kept. *)
Definition replace_byte (old new c : ascii) : ascii := if Ascii.eqb c old then new else c.

(** ** Start-up: [LoadAppConfig] *)

Definition DEFAULT_PORT : Z := 8080.

(** What koanf answers at start-up: the error of loading the file, the
    error of loading the environment (which the program drops), and the
    structure [k.Unmarshal] fills from what was loaded. *)
Record Koanf := {
  file_Load : option error;
  env_Load : option error;
  Unmarshal : AppConfig
}.

(** A log call of the start-up code. *)
Inductive StartupLog :=
| SLog (lvl : Level) (err : option error) (config : option AppConfig) (msg : string).

(** [LoadAppConfig]: [None] is the exit of the process in [log.Fatal]. *)
Definition LoadAppConfig (k : Koanf) : option AppConfig * list StartupLog :=
  match file_Load k with
  | Some err => (None, [SLog FatalLevel (Some err) None "Unable to load config.yaml"])
  | None =>
      let appConfig := Unmarshal k in
      let '(appConfig, warned) :=
        if Port appConfig <=? 0 then
          ({| Port := DEFAULT_PORT; Records := Records appConfig;
              Pushover := Pushover appConfig |},
           [SLog WarnLevel None None
              "app.port configured for non-positive value, using default value."])
        else (appConfig, []) in
      (Some appConfig,
       (warned ++ [SLog DebugLevel None (Some appConfig) "Loaded App Config"])%list)
  end.

(** ** More samples *)

Module Sample2.

(** The sample configuration without Pushover token. *)
Definition silent_config : AppConfig :=
  {| Port := 8080;
     Records := {[ "example.com" := Sample.example_com ]};
     Pushover := {| ApiToken := ""; RecipientKey := "user" |} |}.

(** A start-up where the file loads and no port is configured. *)
Definition koanf : Koanf :=
  {| file_Load := None;
     env_Load := None;
     Unmarshal :=
       {| Port := 0;
          Records := {[ "example.com" := Sample.example_com ]};
          Pushover := {| ApiToken := "token"; RecipientKey := "user" |} |} |}.

(** A form with host and ip and no commit parameter. *)
Definition form : Form :=
  {[ "hostname" := ["example.com"]; "ip" := ["203.0.113.5"] ]}.

End Sample2.

(** * Proofs *)

(** ** The model on literals *)

Example ParseIP_ipv4 :
  net.ParseIP "192.0.2.1" = Some [0; 0; 0; 0; 0; 0; 0; 0; 0; 0; 255; 255; 192; 0; 2; 1].
Proof. by vm_compute. Qed.

Example ParseIP_leading_zero : net.ParseIP "192.0.2.01" = None.
Proof. by vm_compute. Qed.

Example ParseIP_octet_out_of_range : net.ParseIP "192.0.2.256" = None.
Proof. by vm_compute. Qed.

Example ParseIP_ipv6 :
  net.ParseIP "2001:db8::68"
    = Some [32; 1; 13; 184; 0; 0; 0; 0; 0; 0; 0; 0; 0; 0; 0; 104].
Proof. by vm_compute. Qed.

Example ParseIP_zone : net.ParseIP "fe80::1%eth0" = None.
Proof. by vm_compute. Qed.

Example ParseIP_mapped_hex :
  net.To4 (net.ParseIP "0:0:0:0:0:FFFF:cb00:7105") = Some [203; 0; 113; 5].
Proof. by vm_compute. Qed.

Example String_ipv4 : net.String_ (Some [203; 0; 113; 5]) = "203.0.113.5".
Proof. by vm_compute. Qed.

Example String_ipv6 :
  net.String_ (net.ParseIP "2001:0db8:0:0:1:0:0:1") = "2001:db8::1:0:0:1".
Proof. by vm_compute. Qed.

Example validateIp_ipv6_fails :
  validateIp (Sample.request "2001:db8::68" true)
    = Err "'2001:db8::68' is not a valid IpV4 address".
Proof. by vm_compute. Qed.

Example validateIp_empty_fails :
  validateIp (Sample.request "" true) = Err "'' is not a valid IpV4 address".
Proof. by vm_compute. Qed.

(** The scenario of the specification: the primary call fails, the call
    for the backup host succeeds; one failure notice for the primary, one
    call for each of the two hosts, no notice for the backup. *)
Example backup_scenario :
  let t := snd (ProcessIpChange Sample.world Sample.failing_once Sample.config
                  (Sample.request "203.0.113.5" true) []) in
  notifications t = [Sent "Error: IP Update Failed for: example.com"] /\
  map (fun call =>
         (route53.HostedZoneId (fst call),
          map (fun c => types.Name (types.ResourceRecordSet_ c))
              (types.Changes (route53.ChangeBatch (fst call))),
          snd call))
      (remote_calls t)
    = [ ("Z1", ["example.com."; "example.com."], Some "Throttling");
        ("Z1", ["backup.example.com."; "backup.example.com."], None) ].
Proof. by vm_compute. Qed.

(** ** Strings *)

Lemma append_cons (x : ascii) (a b : string) : String x a ++ b = String x (a ++ b).
Proof. reflexivity. Qed.

Lemma append_nil_l (a : string) : "" ++ a = a.
Proof. reflexivity. Qed.

Lemma append_assoc (a b c : string) : (a ++ b) ++ c = a ++ (b ++ c).
Proof. induction a as [|x a IH]; [done | by rewrite !append_cons, IH]. Qed.

Lemma append_nil_r (a : string) : a ++ "" = a.
Proof. induction a as [|x a IH]; [done | by rewrite append_cons, IH]. Qed.

Lemma len_append (a b : string) : len (a ++ b) = len a + len b.
Proof.
  unfold len. induction a as [|x a IH]; [rewrite append_nil_l; simpl; lia |].
  rewrite append_cons. simpl String.length. rewrite !Nat2Z.inj_succ. lia.
Qed.

Lemma len_nonneg (a : string) : 0 <= len a.
Proof. unfold len. lia. Qed.

Lemma len_cons (c : ascii) (a : string) : len (String c a) = 1 + len a.
Proof. unfold len. simpl String.length. lia. Qed.

Lemma len_zero (a : string) : len a = 0 -> a = "".
Proof. destruct a as [|x a]; [done |]. rewrite len_cons. pose proof (len_nonneg a). lia. Qed.

Lemma char_at_append (pre : string) (c : ascii) (rest : string) :
  char_at (pre ++ String c rest) (len pre) = c.
Proof.
  unfold char_at, len. rewrite Nat2Z.id.
  induction pre as [|x pre IH]; [done | rewrite append_cons; exact IH].
Qed.

Lemma slice_full (s : string) : slice s 0 (len s) = s.
Proof.
  unfold slice, len. rewrite Z.sub_0_r, Nat2Z.id. change (Z.to_nat 0) with 0%nat.
  induction s as [|x s IH]; simpl; [done | by rewrite IH].
Qed.

(** ** Decimal digits *)

Lemma digit_unfold (d : Z) : net.digit d = String (digit_char d) "".
Proof. reflexivity. Qed.

Lemma byte_of_digit_char (d : Z) : 0 <= d <= 9 -> byte_of (digit_char d) = 48 + d.
Proof.
  intros Hd. unfold byte_of, digit_char.
  rewrite N_ascii_embedding by lia. lia.
Qed.

Lemma is_digit_digit_char (d : Z) : 0 <= d <= 9 -> netip.is_digit (digit_char d) = true.
Proof.
  intros Hd. unfold netip.is_digit. rewrite byte_of_digit_char by done.
  apply andb_true_intro. split; lia.
Qed.

Lemma is_digit_inv (c : ascii) :
  netip.is_digit c = true ->
  0 <= byte_of c - 48 <= 9 /\ c = digit_char (byte_of c - 48).
Proof.
  unfold netip.is_digit. intros [H1 H2]%andb_prop. split; [lia |].
  unfold digit_char, byte_of.
  replace (48 + (Z.of_N (N_of_ascii c) - 48)) with (Z.of_N (N_of_ascii c)) by lia.
  by rewrite N2Z.id, ascii_N_embedding.
Qed.

Lemma digit_not_dot (c : ascii) : netip.is_digit c = true -> Ascii.eqb c "." = false.
Proof.
  intros H. apply Ascii.eqb_neq. intros ->. by vm_compute in H.
Qed.

(** ** Octets *)

Lemma octet_1 (x : Z) : 0 <= x < 10 -> octet x = net.digit x.
Proof.
  intros H. unfold octet, net.appendDecimal.
  rewrite (proj2 (Z.leb_gt 100 x)), (proj2 (Z.leb_gt 10 x)) by lia.
  by rewrite Z.mod_small by lia.
Qed.

Lemma octet_2 (x : Z) :
  10 <= x < 100 -> octet x = net.digit (x / 10) ++ net.digit (x mod 10).
Proof.
  intros H. unfold octet, net.appendDecimal.
  rewrite (proj2 (Z.leb_gt 100 x)), (proj2 (Z.leb_le 10 x)) by lia.
  rewrite (Z.mod_small (x / 10)); [done |].
  split; [apply Z.div_pos; lia | apply Z.div_lt_upper_bound; lia].
Qed.

Lemma octet_3 (x : Z) :
  100 <= x ->
  octet x = net.digit (x / 100) ++ net.digit (x / 10 mod 10) ++ net.digit (x mod 10).
Proof.
  intros H. unfold octet, net.appendDecimal.
  rewrite (proj2 (Z.leb_le 100 x)), (proj2 (Z.leb_le 10 x)) by lia.
  by rewrite !append_nil_l, append_assoc.
Qed.

Lemma octet_nonempty (x : Z) : exists c s, octet x = String c s.
Proof.
  unfold octet, net.appendDecimal.
  destruct (100 <=? x), (10 <=? x); rewrite ?append_nil_l, ?digit_unfold;
    rewrite ?append_cons; eauto.
Qed.

Lemma len_digit (d : Z) : len (net.digit d) = 1.
Proof. reflexivity. Qed.

Lemma octet_snoc (v d : Z) :
  1 <= v -> 0 <= d <= 9 -> v * 10 + d <= 255 ->
  octet (v * 10 + d) = octet v ++ net.digit d.
Proof.
  intros Hv Hd Hle.
  assert ((v * 10 + d) / 10 = v) as Hdiv.
  { symmetry. apply (Z.div_unique_pos _ 10 v d); lia. }
  assert ((v * 10 + d) mod 10 = d) as Hmod.
  { symmetry. apply (Z.mod_unique_pos _ 10 v d); lia. }
  destruct (Z.lt_ge_cases v 10) as [Hlt | Hge].
  - rewrite (octet_1 v), (octet_2 (v * 10 + d)) by lia. by rewrite Hdiv, Hmod.
  - rewrite (octet_2 v), (octet_3 (v * 10 + d)) by lia.
    rewrite Hdiv, Hmod, append_assoc. do 2 f_equal.
    pose proof (Z.div_mod v 10) as Hv10. pose proof (Z.mod_pos_bound v 10) as Hb.
    symmetry. apply (Z.div_unique_pos _ 100 (v / 10) (v mod 10 * 10 + d)); lia.
Qed.

(** ** The loop of [parseIPv4Fields] without its indices *)

Lemma parseIPv4Fields_loop_scan (s : string) (rest pre : string)
    (i val pos digLen : Z) (fields : list Z) :
  s = pre ++ rest -> i = len pre -> 0 <= digLen ->
  (i =? 0) || Ascii.eqb (char_at s (i - 1)) "." = (digLen =? 0) ->
  netip.parseIPv4Fields_loop s rest i val pos digLen fields
    = scan rest val pos digLen fields.
Proof.
  revert pre i val pos digLen fields.
  induction rest as [|c rest IH]; intros pre i val pos digLen fields Hs Hi Hd Hprev.
  { reflexivity. }
  assert (String c rest = String c "" ++ rest) as Hsplit by reflexivity.
  assert (s = (pre ++ String c "") ++ rest) as Hs'.
  { by rewrite append_assoc, <- Hsplit. }
  assert (len (pre ++ String c "") = i + 1) as Hlen.
  { rewrite len_append. subst i. reflexivity. }
  assert (char_at s (i + 1 - 1) = c) as Hc.
  { replace (i + 1 - 1) with i by lia. subst s i. apply char_at_append. }
  pose proof (len_nonneg pre) as Hpre.
  assert ((i =? len s - 1) = (len rest =? 0)) as Hlast.
  { rewrite Hs, len_append, len_cons. pose proof (len_nonneg rest).
    destruct (Z.eqb_spec (len rest) 0); [apply Z.eqb_eq | apply Z.eqb_neq]; lia. }
  simpl. destruct (netip.is_digit c) eqn:Hdigit.
  - destruct ((digLen =? 1) && (val =? 0)); [done |].
    destruct (255 <? val * 10 + byte_of c - 48); [done |].
    apply (IH (pre ++ String c "")); [done | lia | lia |].
    rewrite Hc, (digit_not_dot c Hdigit).
    rewrite (proj2 (Z.eqb_neq (i + 1) 0)), (proj2 (Z.eqb_neq (digLen + 1) 0)) by lia.
    done.
  - destruct (Ascii.eqb c ".") eqn:Hdot; [| done].
    rewrite Hlast.
    replace ((i =? 0) || (len rest =? 0) || Ascii.eqb (char_at s (i - 1)) ".")
      with ((digLen =? 0) || (len rest =? 0)).
    2:{ rewrite <- Hprev. by destruct (i =? 0), (len rest =? 0), (Ascii.eqb _ "."). }
    destruct ((digLen =? 0) || (len rest =? 0)); [done |].
    destruct (pos =? 3); [done |].
    apply (IH (pre ++ String c "")); [done | lia | lia |].
    rewrite Hc, Hdot. by rewrite orb_true_r.
Qed.

Lemma parseIPv4_scan (s : string) :
  netip.parseIPv4 s = scan s 0 0 0 [0; 0; 0; 0].
Proof.
  unfold netip.parseIPv4, netip.parseIPv4Fields. rewrite slice_full.
  by apply (parseIPv4Fields_loop_scan s s "").
Qed.

(** ** Dotted-decimal notation is what the loop accepts *)

Lemma reading_digits (ctx : string) (val digLen : Z) :
  reading ctx val digLen -> digLen <> 0 ->
  1 <= digLen /\ 0 <= val <= 255 /\ ctx = octet val.
Proof.
  intros [(? & _) | (Hl & Hv & Hc)] Hne; [done |]. repeat split; try done; try lia.
  destruct (octet_nonempty val) as (c & s & Ho).
  rewrite Hl, Hc, Ho, len_cons. pose proof (len_nonneg s). lia.
Qed.

Lemma reading_nonneg (ctx : string) (val digLen : Z) :
  reading ctx val digLen -> 0 <= digLen.
Proof. intros [(-> & _) | (-> & _)]; [lia | apply len_nonneg]. Qed.

Lemma uint8_small (x : Z) : 0 <= x <= 255 -> uint8 x = x.
Proof. intros H. unfold uint8. apply Z.mod_small. lia. Qed.

Lemma scan_complete (rest : string) :
  forall (val pos digLen : Z) (fields out : list Z) (ctx : string),
    scan rest val pos digLen fields = Ok out ->
    0 <= pos <= 3 ->
    reading ctx val digLen ->
    (digLen = 0 -> rest <> "") ->
    exists v xs ds,
      rest = ds ++ dotted xs /\
      ctx ++ ds = octet v /\
      0 <= v <= 255 /\
      Forall (fun x => 0 <= x <= 255) xs /\
      Z.of_nat (length xs) = 3 - pos /\
      out = fill fields pos (v :: xs).
Proof.
  induction rest as [|c rest IH]; intros val pos digLen fields out ctx Hscan Hpos Hread Hne.
  - simpl in Hscan. destruct (pos <? 3) eqn:Hp; [done |].
    apply Z.ltb_ge in Hp. assert (pos = 3) as -> by lia.
    destruct (reading_digits ctx val digLen Hread) as (_ & Hv & Hc).
    { intros ->. by apply Hne. }
    exists val, [], "". rewrite !append_nil_r. injection Hscan as <-.
    rewrite uint8_small by done. repeat split; try done; try lia.
  - simpl in Hscan. destruct (netip.is_digit c) eqn:Hdigit.
    + destruct (is_digit_inv c Hdigit) as [Hd Hchar].
      remember (byte_of c - 48) as d eqn:Hdd.
      destruct ((digLen =? 1) && (val =? 0)) eqn:Hlead; [done |].
      replace (val * 10 + byte_of c - 48) with (val * 10 + d) in Hscan by lia.
      destruct (255 <? val * 10 + d) eqn:Hbig; [done |].
      apply Z.ltb_ge in Hbig.
      assert (reading (ctx ++ net.digit d) (val * 10 + d) (digLen + 1)) as Hread'.
      { right. rewrite len_append, len_digit.
        destruct Hread as [(-> & -> & ->) | (Hl & Hv & Hc)].
        - rewrite append_nil_l. change (len "") with 0.
          replace (0 * 10 + d) with d by lia. rewrite octet_1 by lia.
          repeat split; try done; lia.
        - assert (val <> 0) as Hval.
          { intros ->. rewrite Hc in Hl. by rewrite Hl in Hlead. }
          rewrite octet_snoc by lia. rewrite <- Hc. repeat split; try done; lia. }
      destruct (IH _ _ _ _ _ _ Hscan Hpos Hread') as (v & xs & ds & -> & Hctx & Hv & Hxs & Hlen & ->).
      { pose proof (reading_nonneg _ _ _ Hread). lia. }
      exists v, xs, (String c ds). repeat split; try done; try lia.
      rewrite <- Hctx, append_assoc, digit_unfold, <- Hchar. done.
    + destruct (Ascii.eqb c ".") eqn:Hdot; [| done].
      apply Ascii.eqb_eq in Hdot. subst c.
      destruct (digLen =? 0) eqn:Hd0; [done |]. apply Z.eqb_neq in Hd0.
      destruct (len rest =? 0) eqn:Hr0; [done |]. apply Z.eqb_neq in Hr0.
      simpl in Hscan. destruct (pos =? 3) eqn:Hp3; [done |]. apply Z.eqb_neq in Hp3.
      destruct (reading_digits ctx val digLen Hread Hd0) as (_ & Hv & Hc).
      destruct (IH 0 (pos + 1) 0 _ out "" Hscan) as (v' & xs' & ds' & -> & Hctx & Hv' & Hxs & Hlen & ->).
      { lia. } { by left. } { intros _ ->. done. }
      rewrite append_nil_l in Hctx. subst ds'.
      exists val, (v' :: xs'), "". rewrite append_nil_r, append_nil_l.
      rewrite uint8_small by done.
      repeat split; try done; try lia.
      * by constructor.
      * simpl length. lia.
Qed.

Lemma parseIPv4_complete (s : string) (ip : list Z) :
  netip.parseIPv4 s = Ok ip -> printed_quad s ip.
Proof.
  rewrite parseIPv4_scan. intros Hscan.
  destruct (scan_complete s 0 0 0 _ ip "" Hscan) as (a & xs & ds & -> & Hctx & Ha & Hxs & Hlen & ->).
  { lia. } { by left. } { intros _ ->. done. }
  rewrite append_nil_l in Hctx. subst ds.
  destruct xs as [|b [|c [|d [|? ?]]]]; simpl in Hlen; try lia.
  apply Forall_cons in Hxs as [Hb Hxs]. apply Forall_cons in Hxs as [Hc Hxs].
  apply Forall_cons in Hxs as [Hd _].
  exists a, b, c, d. repeat split; try done; try lia.
  simpl dotted. by rewrite append_nil_r.
Qed.

(** A property of every octet value, checked value by value. *)
Lemma octet_range_ind (P : Z -> Prop) :
  Forall P (seqZ 0 256) -> forall x, 0 <= x <= 255 -> P x.
Proof.
  intros H x Hx. apply (proj1 (Forall_forall P (seqZ 0 256)) H).
  apply elem_of_seqZ. lia.
Qed.

Ltac each_octet :=
  let l := eval vm_compute in (seqZ 0 256) in
  change (seqZ 0 256) with l;
  repeat (constructor; [intros; reflexivity |]);
  constructor.

Lemma scan_octet (x : Z) :
  0 <= x <= 255 ->
  forall (rest : string) (pos : Z) (fields : list Z),
    scan (octet x ++ rest) 0 pos 0 fields = scan rest x pos (len (octet x)) fields.
Proof. revert x. refine (octet_range_ind _ _). each_octet. Qed.

Lemma scan_dot (rest : string) (val pos digLen : Z) (fields : list Z) :
  digLen <> 0 -> len rest <> 0 -> pos <> 3 ->
  scan ("." ++ rest) val pos digLen fields
    = scan rest 0 (pos + 1) 0 (<[Z.to_nat pos := uint8 val]> fields).
Proof.
  intros Hd Hr Hp. rewrite append_cons, append_nil_l. simpl.
  by rewrite (proj2 (Z.eqb_neq _ _) Hd), (proj2 (Z.eqb_neq _ _) Hr),
             (proj2 (Z.eqb_neq _ _) Hp).
Qed.

Lemma len_octet_pos (x : Z) (rest : string) : len (octet x ++ rest) <> 0.
Proof.
  destruct (octet_nonempty x) as (c & s & ->).
  rewrite append_cons, len_cons. pose proof (len_nonneg (s ++ rest)). lia.
Qed.

Lemma len_octet_ne (x : Z) : len (octet x) <> 0.
Proof. rewrite <- (append_nil_r (octet x)). apply len_octet_pos. Qed.

Lemma parseIPv4_sound (s : string) (ip : list Z) :
  printed_quad s ip -> netip.parseIPv4 s = Ok ip.
Proof.
  intros (a & b & c & d & -> & Ha & Hb & Hc & Hd & ->).
  rewrite parseIPv4_scan.
  rewrite scan_octet, scan_dot by (done || apply len_octet_pos || apply len_octet_ne).
  rewrite scan_octet, scan_dot by (done || apply len_octet_pos || apply len_octet_ne).
  rewrite scan_octet, scan_dot by (done || apply len_octet_pos || apply len_octet_ne).
  rewrite <- (append_nil_r (octet d)), scan_octet by done.
  simpl. by rewrite !uint8_small.
Qed.

(** ** The dispatch of [ParseAddr] *)

Lemma has_byte_append (c : ascii) (a b : string) :
  has_byte c (a ++ b) = has_byte c a || has_byte c b.
Proof.
  induction a as [|x a IH]; [done |].
  rewrite append_cons. simpl. by rewrite IH, orb_assoc.
Qed.

Lemma octet_no_colon (x : Z) : 0 <= x <= 255 -> has_byte ":" (octet x) = false.
Proof. revert x. refine (octet_range_ind _ _). each_octet. Qed.

Lemma printed_quad_no_colon (s : string) (ip : list Z) :
  printed_quad s ip -> has_byte ":" s = false.
Proof.
  intros (a & b & c & d & _ & Ha & Hb & Hc & Hd & ->).
  rewrite !has_byte_append, !octet_no_colon by done. reflexivity.
Qed.

Lemma ParseAddr_scan_octet (x : Z) :
  0 <= x <= 255 ->
  forall (s rest : string),
    netip.ParseAddr_scan s (octet x ++ "." ++ rest)
      = match netip.parseIPv4 s with
        | Ok b => Ok (netip.Addr4 b)
        | Err e => Err e
        end.
Proof. revert x. refine (octet_range_ind _ _). each_octet. Qed.

Lemma ParseAddr_printed_quad (s : string) (ip : list Z) :
  printed_quad s ip -> netip.ParseAddr s = Ok (netip.Addr4 ip).
Proof.
  intros Hs. pose proof (parseIPv4_sound s ip Hs) as Hp.
  destruct Hs as (a & b & c & d & _ & Ha & _ & _ & _ & Hs).
  unfold netip.ParseAddr. rewrite Hs at 2.
  by rewrite ParseAddr_scan_octet, Hp.
Qed.

Lemma ParseAddr_scan_inv (s rest : string) (addr : netip.Addr) :
  netip.ParseAddr_scan s rest = Ok addr ->
  (exists b, addr = netip.Addr4 b /\ netip.parseIPv4 s = Ok b) \/
  (exists b z, addr = netip.Addr6 b z /\ netip.parseIPv6 s = Ok (b, z) /\
               has_byte ":" rest = true).
Proof.
  induction rest as [|c rest IH]; [done |]. simpl.
  destruct (Ascii.eqb c ".") eqn:Hdot.
  { destruct (netip.parseIPv4 s) as [b|]; [| done].
    intros [= <-]. left. by exists b. }
  destruct (Ascii.eqb c ":") eqn:Hcolon.
  { destruct (netip.parseIPv6 s) as [[b z]|]; [| done].
    intros [= <-]. right. by exists b, z. }
  destruct (Ascii.eqb c "%"); [done |].
  intros H. destruct (IH H) as [? | (b & z & ? & ? & ?)]; [by left |].
  right. by exists b, z.
Qed.

(** ** The fuel of the IPv6 loop *)

(** Eight rounds are enough for the loop of [parseIPv6]: more fuel never
    changes its result. *)
Lemma parseIPv6_loop_fuel (fuel : nat) (input zone : string) :
  forall (fuel' : nat) (st : netip.v6state),
    16 <= netip.v6_i st + 2 * Z.of_nat fuel -> (fuel <= fuel')%nat ->
    netip.parseIPv6_loop fuel' input zone st = netip.parseIPv6_loop fuel input zone st.
Proof.
  induction fuel as [|fuel IH]; intros fuel' [s i e ip] Hi Hle; simpl in Hi.
  - destruct fuel'; simpl; rewrite (proj2 (Z.leb_le 16 i)); (reflexivity || lia).
  - destruct fuel' as [|fuel']; [lia |]. simpl.
    destruct (16 <=? i); [reflexivity |].
    destruct (netip.hex_group s 0 0) as [[off acc]|]; [| reflexivity].
    repeat match goal with
           | |- (if ?b then _ else _) = (if ?b then _ else _) => destruct b; try reflexivity
           end;
      apply IH; simpl; lia.
Qed.

(** ** The parsers return as many bytes as they were given *)

Lemma parseIPv4Fields_loop_length (s rest : string) :
  forall (i val pos digLen : Z) (fields out : list Z),
    netip.parseIPv4Fields_loop s rest i val pos digLen fields = Ok out ->
    length out = length fields.
Proof.
  induction rest as [|c rest IH]; intros i val pos digLen fields out; simpl.
  - destruct (pos <? 3); [done |]. intros [= <-]. apply length_insert.
  - destruct (netip.is_digit c).
    + destruct ((digLen =? 1) && (val =? 0)); [done |].
      destruct (255 <? _); [done |]. apply IH.
    + destruct (Ascii.eqb c "."); [| done].
      destruct (_ || _); [done |]. destruct (pos =? 3); [done |].
      intros H. apply IH in H. by rewrite length_insert in H.
Qed.

Lemma expand_ellipsis_length (ip : list Z) (i ellipsis : Z) :
  length (netip.expand_ellipsis ip i ellipsis) = length ip.
Proof.
  unfold netip.expand_ellipsis.
  assert (forall (js : list Z) (f : list Z -> Z -> nat * Z) (l : list Z),
            length (foldl (fun ip j => <[fst (f ip j) := snd (f ip j)]> ip) l js)
              = length l) as Hfold.
  { induction js as [|j js IH]; intros f l; simpl; [done |].
    by rewrite IH, length_insert. }
  rewrite (Hfold _ (fun ip j => (Z.to_nat j, 0))).
  apply (Hfold _ (fun ip j => (Z.to_nat (j + (16 - i)), ip !!! Z.to_nat j))).
Qed.

Lemma parseIPv6_loop_length (fuel : nat) (input zone : string) :
  forall st st',
    netip.parseIPv6_loop fuel input zone st = Ok st' ->
    length (netip.v6_ip st) = 16%nat -> 0 <= netip.v6_i st ->
    length (netip.v6_ip st') = 16%nat.
Proof.
  induction fuel as [|fuel IH]; intros [s i e ip] st' H Hlen Hi; simpl in *.
  { destruct (16 <=? i); by injection H as <-. }
  destruct (16 <=? i) eqn:Hi16; [by injection H as <- |].
  apply Z.leb_gt in Hi16.
  destruct (netip.hex_group s 0 0) as [[off acc]|]; [| done].
  destruct (off =? 0); [done |].
  destruct ((off <? len s) && Ascii.eqb (char_at s off) ".").
  { destruct ((e <? 0) && negb (i =? 12)); [done |].
    destruct (16 <? i + 4) eqn:Hroom; [done |]. apply Z.ltb_ge in Hroom.
    destruct (netip.parseIPv4Fields _ _ _ _) as [sub'|] eqn:Hsub; [| done].
    injection H as <-. simpl.
    apply parseIPv4Fields_loop_length in Hsub.
    rewrite !length_app, Hsub, !length_take, !length_drop, Hlen. lia. }
  set (ip' := <[Z.to_nat (i + 1) := uint8 acc]>
                (<[Z.to_nat i := uint8 (Z.shiftr acc 8)]> ip)) in *.
  assert (length ip' = 16%nat) as Hlen' by (unfold ip'; by rewrite !length_insert).
  repeat match type of H with
         | (if ?b then _ else _) = _ => destruct b; try done
         end;
    try (injection H as <-; exact Hlen');
    (apply IH in H; [exact H | exact Hlen' | simpl; lia]).
Qed.

Lemma parseIPv6_length (s : string) (b : list Z) (zone : string) :
  netip.parseIPv6 s = Ok (b, zone) -> length b = 16%nat.
Proof.
  unfold netip.parseIPv6.
  destruct (if negb _ then _ else _) as [[s' z]|]; [| done].
  destruct (_ && (len _ =? 0)); [by intros [= <- _] |].
  destruct (netip.parseIPv6_loop _ _ _ _) as [[s2 i e ip]|] eqn:Hloop; [| done].
  apply parseIPv6_loop_length in Hloop; [| done | simpl; lia]. simpl in Hloop.
  destruct (negb _); [done |].
  destruct (i <? 16).
  - destruct (e <? 0); [done |]. intros [= <- _].
    by rewrite expand_ellipsis_length.
  - destruct (0 <=? e); [done |]. by intros [= <- _].
Qed.

Lemma ParseIP_length (s : string) (b : list Z) :
  net.ParseIP s = Some b -> length b = 16%nat.
Proof.
  unfold net.ParseIP, netip.ParseAddr.
  destruct (netip.ParseAddr_scan s s) as [addr|] eqn:Hscan; [| done].
  destruct (negb _); [done |]. intros [= <-].
  destruct (ParseAddr_scan_inv s s addr Hscan) as [(b & -> & Hb) | (b & z & -> & Hb & _)].
  - apply parseIPv4_complete in Hb as (x1 & x2 & x3 & x4 & -> & _). reflexivity.
  - by apply parseIPv6_length in Hb.
Qed.

Local Opaque Z.eqb.

Lemma To4_16 (b ip : list Z) :
  length b = 16%nat ->
  (net.To4 (Some b) = Some ip <-> b = v4mapped ip /\ length ip = 4%nat).
Proof.
  intros Hlen.
  do 16 (destruct b as [|? b]; [done |]). destruct b; [| done].
  unfold net.To4, v4mapped. simpl. split.
  - repeat match goal with
           | |- context [(0 =? ?x)] =>
               destruct (Z.eqb_spec 0 x); [subst x | done]; simpl
           end.
    repeat match goal with
           | |- context [(?x =? 255)] =>
               destruct (Z.eqb_spec x 255); [subst x | done]; simpl
           end.
    by intros [= <-].
  - intros [[= -> -> -> -> -> -> -> -> -> -> -> -> <-] _]. reflexivity.
Qed.

Local Transparent Z.eqb.

Lemma ParseIP_printed_quad (s : string) (ip : list Z) :
  printed_quad s ip -> net.ParseIP s = Some (v4mapped ip).
Proof.
  intros Hs. unfold net.ParseIP. by rewrite (ParseAddr_printed_quad s ip Hs).
Qed.

Lemma printed_quad_length (s : string) (ip : list Z) :
  printed_quad s ip -> length ip = 4%nat.
Proof. by intros (a & b & c & d & -> & _). Qed.

Lemma ParseIP_inv (s : string) (b : list Z) :
  net.ParseIP s = Some b ->
  (exists ip, b = v4mapped ip /\ printed_quad s ip) \/ has_byte ":" s = true.
Proof.
  unfold net.ParseIP, netip.ParseAddr.
  destruct (netip.ParseAddr_scan s s) as [addr|] eqn:Hscan; [| done].
  destruct (negb _); [done |]. intros [= <-].
  destruct (ParseAddr_scan_inv s s addr Hscan) as [(b & -> & Hb) | (b & z & -> & _ & Hc)].
  - left. exists b. split; [done |]. by apply parseIPv4_complete.
  - by right.
Qed.

Lemma appendDecimal_octet (b : string) (x : Z) : net.appendDecimal b x = b ++ octet x.
Proof.
  unfold octet, net.appendDecimal.
  destruct (100 <=? x), (10 <=? x); by rewrite ?append_nil_l, ?append_assoc.
Qed.

Lemma To4_v4mapped (ip : list Z) :
  length ip = 4%nat -> net.To4 (Some (v4mapped ip)) = Some ip.
Proof.
  intros Hlen. apply To4_16; [| done].
  unfold v4mapped. rewrite !length_app, Hlen. reflexivity.
Qed.

(** Go prints an octet as the Standard Library prints the number. *)
Lemma octet_decimal (x : Z) : 0 <= x <= 255 -> octet x = decimal x.
Proof. revert x. refine (octet_range_ind _ _). each_octet. Qed.

Lemma dotted_decimal_printed (s : string) (ip : list Z) :
  dotted_decimal s ip <-> printed_quad s ip.
Proof.
  split; intros (a & b & c & d & -> & Ha & Hb & Hc & Hd & ->);
    exists a, b, c, d; by rewrite !octet_decimal.
Qed.

(** The string form of a validated dotted-decimal address is the string
    that was validated. *)
Lemma String_dotted_decimal (s : string) (ip : list Z) :
  dotted_decimal s ip -> net.String_ (Some ip) = s.
Proof.
  intros (a & b & c & d & -> & _ & _ & _ & _ & ->)%dotted_decimal_printed.
  unfold net.String_. simpl. unfold net.string4. simpl.
  rewrite !appendDecimal_octet, append_nil_l. by rewrite !append_assoc.
Qed.

(** C2, as amended: validation succeeds exactly for the dotted-decimal
    IPv4 strings (four decimal numbers from 0 to 255, without leading
    zeros) and for the strings with a colon that [net.ParseIP] reads as an
    IPv4-mapped IPv6 address [::ffff:a.b.c.d], which validate as the IPv4
    address [a.b.c.d]; every other string, every other IPv6 address
    included, fails with the error "'s' is not a valid IpV4 address". *)
Theorem validateIp_accepts (request : UpdateRequest) :
  (forall ip,
     validateIp request = Ok ip <->
       dotted_decimal (IP request) ip \/
       (has_byte ":" (IP request) = true /\
        net.ParseIP (IP request) = Some (v4mapped ip) /\ length ip = 4%nat)) /\
  ((exists ip, validateIp request = Ok ip) \/
   validateIp request = Err ("'" ++ IP request ++ "' is not a valid IpV4 address")).
Proof.
  split.
  - intros ip. rewrite dotted_decimal_printed. unfold validateIp. split.
    + destruct (net.ParseIP (IP request)) as [b|] eqn:Hparse; [| done].
      destruct (net.To4 (Some b)) as [ip'|] eqn:H4; [| done]. intros [= ->].
      apply (To4_16 b ip (ParseIP_length _ _ Hparse)) in H4 as [-> Hlen].
      destruct (ParseIP_inv _ _ Hparse) as [(ip' & Heq & Hdd) | Hcolon].
      * left. unfold v4mapped in Heq. do 2 apply app_inv_head in Heq. by subst ip'.
      * right. done.
    + intros [Hdd | (_ & Hparse & Hlen)].
      * rewrite (ParseIP_printed_quad _ _ Hdd).
        by rewrite (To4_v4mapped ip (printed_quad_length _ _ Hdd)).
      * by rewrite Hparse, (To4_v4mapped ip Hlen).
  - unfold validateIp.
    destruct (net.To4 (net.ParseIP (IP request))) as [ip|]; [left | right]; eauto.
Qed.

(** C2 as claimed fails: [::ffff:203.0.113.5] is a valid IPv6 address and
    not a dotted-decimal string, and it validates, as [203.0.113.5]. *)
Lemma validateIp_ipv6_counterexample :
  validateIp {| Host := "example.com"; IP := "::ffff:203.0.113.5"; Commit := true |}
    = Ok [203; 0; 113; 5] /\
  netip.parseIPv6 "::ffff:203.0.113.5"
    = Ok ([0; 0; 0; 0; 0; 0; 0; 0; 0; 0; 255; 255; 203; 0; 113; 5], "") /\
  ~ (exists ip, dotted_decimal "::ffff:203.0.113.5" ip).
Proof.
  split; [by vm_compute |]. split; [by vm_compute |].
  intros [ip Hdd]. apply dotted_decimal_printed, printed_quad_no_colon in Hdd.
  by vm_compute in Hdd.
Qed.

(** ** How each function extends the trace *)

Section Runs.

Variable world : World.

Lemma remote_calls_app (t1 t2 : list Event) :
  remote_calls (t1 ++ t2) = (remote_calls t1 ++ remote_calls t2)%list.
Proof. apply omap_app. Qed.

Lemma logged_payloads_app (t1 t2 : list Event) :
  logged_payloads (t1 ++ t2) = (logged_payloads t1 ++ logged_payloads t2)%list.
Proof. apply omap_app. Qed.

Lemma notifications_app (t1 t2 : list Event) :
  notifications (t1 ++ t2) = (notifications t1 ++ notifications t2)%list.
Proof. apply omap_app. Qed.

(** One run of the notifier: exactly one notice, no remote DNS call, no
    payload. *)
Lemma NotifyPushover_run (config : PushoverConfig) (host : string)
    (err : option error) (h : list Event) :
  exists t,
    NotifyPushover world config host err h = (tt, (h ++ t)%list) /\
    notifications t = [report config host err] /\
    remote_calls t = [] /\ logged_payloads t = [].
Proof.
  unfold NotifyPushover, report, configured.
  destruct (String.eqb (ApiToken config) "") eqn:Ha; simpl.
  { eexists; split; [reflexivity | done]. }
  destruct (String.eqb (RecipientKey config) "") eqn:Hr; simpl.
  { eexists; split; [reflexivity | done]. }
  unfold bind, history, log, emit, ret.
  destruct (SendMessage world h _ _ _) as [response [e|]] eqn:Hs;
    rewrite <- ?(assoc_L (++)); simpl;
    (eexists; split; [reflexivity | by destruct err]).
Qed.

(** [MakeChangeRequest] only reads the clock. *)
Lemma MakeChangeRequest_run zoneId hostname ip ttl (h : list Event) :
  exists input,
    MakeChangeRequest world zoneId hostname ip ttl h = (input, h) /\
    is_change_for zoneId hostname (net.String_ ip) ttl input.
Proof.
  eexists; split; [reflexivity |]. split; [reflexivity |].
  eexists; reflexivity.
Qed.

(** One run of the per-host update: the payload is logged once; the remote
    client is called once when [commit] is set and never otherwise; the
    error returned is the client's. *)
Lemma UpdateRoute53Record_run (client : Client) (hostConfig : HostConfig)
    (hostname : Hostname) (ip : option net.IP) (commit : bool) (h : list Event) :
  exists input err t,
    UpdateRoute53Record world client hostConfig hostname ip commit h
      = (err, (h ++ t)%list) /\
    is_change_for (ZoneId hostConfig) hostname (net.String_ ip) (Ttl hostConfig) input /\
    logged_payloads t = [input] /\
    remote_calls t = (if commit then [(input, err)] else []) /\
    notifications t = [] /\
    (commit = false -> err = None /\
       t = [EvLog DebugLevel [FInput "ChangeResourcesRecordSetInput" input] ""]).
Proof.
  destruct (MakeChangeRequest_run (ZoneId hostConfig) hostname ip (Ttl hostConfig) h)
    as (input & Hmk & Hin).
  exists input.
  unfold UpdateRoute53Record, bind at 1. rewrite Hmk.
  unfold bind, history, log, emit, ret.
  destruct commit.
  - destruct (ChangeResourceRecordSets client _ input) as [output [e|]] eqn:Hc;
      rewrite <- ?(assoc_L (++)); simpl;
      do 2 eexists; (split; [reflexivity |]); (split; [exact Hin |]);
      repeat split; done.
  - do 2 eexists. split; [reflexivity |]. split; [exact Hin |].
    repeat split; done.
Qed.

(** One round of the loop. *)
Lemma fanout_round (client : Client) (appConfig : AppConfig) (hostConfig : HostConfig)
    (ip : net.IP) (host : string) (h : list Event) :
  exists input err t,
    bind (UpdateRoute53Record world client hostConfig host (Some ip) true)
      (fun err =>
         match err with
         | Some _ => NotifyPushover world (Pushover appConfig) host err
         | None => ret tt
         end) h = (tt, (h ++ t)%list) /\
    is_change_for (ZoneId hostConfig) host (net.String_ (Some ip)) (Ttl hostConfig) input /\
    remote_calls t = [(input, err)] /\
    logged_payloads t = [input] /\
    notifications t = failure_notices (Pushover appConfig) [(host, err)].
Proof.
  destruct (UpdateRoute53Record_run client hostConfig host (Some ip) true h)
    as (input & err & t1 & Hrun & Hin & Hlog & Hcalls & Hnot & _).
  exists input, err. unfold bind. rewrite Hrun. destruct err as [e|].
  - destruct (NotifyPushover_run (Pushover appConfig) host (Some e) (h ++ t1))
      as (t2 & -> & Hn & Hc & Hl).
    exists (t1 ++ t2)%list. rewrite (assoc_L (++)).
    rewrite remote_calls_app, logged_payloads_app, notifications_app.
    rewrite Hcalls, Hc, Hlog, Hl, Hnot, Hn. done.
  - exists t1. done.
Qed.

(** The loop calls the remote client once per additional host, in order,
    whatever the earlier calls returned, and runs the notifier exactly for
    the hosts whose own call failed. *)
Lemma fanout_run (client : Client) (appConfig : AppConfig) (hostConfig : HostConfig)
    (ip : net.IP) (hosts : list string) (h : list Event) :
  exists t,
    fanout world client appConfig hostConfig ip true hosts h = (tt, (h ++ t)%list) /\
    Forall2 (fun host call =>
               is_change_for (ZoneId hostConfig) host (net.String_ (Some ip))
                 (Ttl hostConfig) (fst call))
            hosts (remote_calls t) /\
    logged_payloads t = map fst (remote_calls t) /\
    notifications t =
      failure_notices (Pushover appConfig) (zip hosts (map snd (remote_calls t))).
Proof.
  revert h. induction hosts as [|host hosts IH]; intros h.
  - exists []. rewrite app_nil_r. repeat split; constructor.
  - destruct (fanout_round client appConfig hostConfig ip host h)
      as (input & err & t1 & Hbody & Hin & Hc1 & Hl1 & Hn1).
    destruct (IH (h ++ t1)%list) as (t2 & Hrest & Hall & Hl2 & Hn2).
    exists (t1 ++ t2)%list. split.
    { unfold fanout in *. simpl. unfold bind at 1. rewrite Hbody.
      rewrite Hrest. by rewrite <- (assoc_L (++)). }
    rewrite !remote_calls_app, !logged_payloads_app, !notifications_app.
    rewrite Hc1, Hl1, Hn1, Hl2, Hn2. simpl.
    repeat split.
    + constructor; [exact Hin | exact Hall].
    + unfold failure_notices. simpl. by destruct err.
Qed.

End Runs.

(** ** The orchestrator *)

Section Orchestrator.

Variable world : World.
Variable client : Client.
Variable appConfig : AppConfig.

(** C1: a request whose IP fails validation, or whose host (with a valid
    IP) is absent from [config.records], makes [ProcessIpChange] return
    after one error-level log call and nothing else: no remote DNS call is
    issued and the notifier is not run. *)
Theorem ProcessIpChange_rejects_locally (request : UpdateRequest) (h : list Event) :
  (exists e, validateIp request = Err e) \/
  ((exists ip, validateIp request = Ok ip) /\
   Records appConfig !! Host request = None) ->
  exists fields msg,
    ProcessIpChange world client appConfig request h
      = (tt, (h ++ [EvLog ErrorLevel fields msg])%list) /\
    remote_calls [EvLog ErrorLevel fields msg] = [] /\
    logged_payloads [EvLog ErrorLevel fields msg] = [] /\
    notifications [EvLog ErrorLevel fields msg] = [].
Proof.
  intros [[e He] | [[ip Hip] Hcfg]]; unfold ProcessIpChange.
  - rewrite He. do 2 eexists. split; [reflexivity | done].
  - rewrite Hip, Hcfg. do 2 eexists. split; [reflexivity | done].
Qed.

(** The whole run of the orchestrator on a valid request for a configured
    host: the primary update, one run of the notifier on its outcome, then
    the fan-out when and only when the primary failed. *)
Lemma ProcessIpChange_trace (request : UpdateRequest) (ip : net.IP)
    (hostConfig : HostConfig) (h : list Event) :
  validateIp request = Ok ip ->
  Records appConfig !! Host request = Some hostConfig ->
  exists input calls t1 t,
    let err :=
      fst (UpdateRoute53Record world client hostConfig (getHostname request)
             (Some ip) (Commit request) h) in
    UpdateRoute53Record world client hostConfig (getHostname request)
      (Some ip) (Commit request) h = (err, (h ++ t1)%list) /\
    logged_payloads t1 = [input] /\
    ProcessIpChange world client appConfig request h = (tt, (h ++ t)%list) /\
    is_change_for (ZoneId hostConfig) (Host request) (net.String_ (Some ip))
      (Ttl hostConfig) input /\
    logged_payloads t = input :: map fst calls /\
    remote_calls t = ((if Commit request then [(input, err)] else []) ++ calls)%list /\
    notifications t =
      report (Pushover appConfig) (Host request) err
      :: failure_notices (Pushover appConfig)
           (zip (AdditionalHosts hostConfig) (map snd calls)) /\
    (Commit request = false -> err = None) /\
    fanout_calls hostConfig ip err calls.
Proof.
  intros Hip Hcfg.
  destruct (UpdateRoute53Record_run world client hostConfig (getHostname request)
              (Some ip) (Commit request) h)
    as (input & err & t1 & Hup & Hin & Hl1 & Hc1 & Hn1 & Hdry).
  destruct (NotifyPushover_run world (Pushover appConfig) (Host request) err (h ++ t1))
    as (t2 & Hnotify & Hn2 & Hc2 & Hl2).
  rewrite Hup. simpl fst.
  assert (Commit request = false -> err = None) as Hnone by (intros Hf; by apply Hdry).
  unfold ProcessIpChange. rewrite Hip, Hcfg.
  unfold bind at 1. rewrite Hup. unfold bind at 1. rewrite Hnotify.
  destruct err as [e|].
  - assert (Commit request = true) as Hcommit.
    { destruct (Commit request); [done |]. by specialize (Hnone eq_refl). }
    rewrite Hcommit in *.
    destruct (fanout_run world client appConfig hostConfig ip
                (AdditionalHosts hostConfig) ((h ++ t1) ++ t2)%list)
      as (t3 & Hfan & Hall & Hl3 & Hn3).
    unfold fanout in Hfan. rewrite Hfan.
    exists input, (remote_calls t3), t1, (t1 ++ t2 ++ t3)%list.
    split; [done |]. split; [done |].
    rewrite !logged_payloads_app, !remote_calls_app, !notifications_app.
    rewrite Hl1, Hl2, Hl3, Hc1, Hc2, Hn1, Hn2, Hn3, <- !(assoc_L (++)).
    split; [done |]. split; [exact Hin |]. repeat split; done.
  - exists input, [], t1, (t1 ++ t2)%list.
    split; [done |]. split; [done |].
    rewrite !logged_payloads_app, !remote_calls_app, !notifications_app.
    cbn [map]. rewrite zip_with_nil_r.
    rewrite Hl1, Hl2, Hc1, Hc2, Hn1, Hn2, <- !(assoc_L (++)).
    rewrite app_nil_r.
    split; [done |]. split; [exact Hin |]. repeat split; done.
Qed.


(** C4: for a configured host, the notifier runs on the primary host's
    outcome exactly once; every other notice of the run reports the
    failure of an additional host.  When the primary update returned no
    error, that success notice is the only one, the only payload built is
    the primary's, and the remote client is called for no additional host
    (it is called once, for the primary, when the request commits). *)
Theorem primary_outcome_notified_once (request : UpdateRequest) (ip : net.IP)
    (hostConfig : HostConfig) (h : list Event) (err : option error) :
  validateIp request = Ok ip ->
  Records appConfig !! Host request = Some hostConfig ->
  fst (UpdateRoute53Record world client hostConfig (getHostname request) (Some ip)
         (Commit request) h) = err ->
  exists t input others,
    ProcessIpChange world client appConfig request h = (tt, (h ++ t)%list) /\
    is_change_for (ZoneId hostConfig) (Host request) (net.String_ (Some ip))
      (Ttl hostConfig) input /\
    notifications t = report (Pushover appConfig) (Host request) err :: others /\
    Forall (fun n => exists a e, a ∈ AdditionalHosts hostConfig /\
                       n = report (Pushover appConfig) a (Some e)) others /\
    (err = None ->
       others = [] /\
       logged_payloads t = [input] /\
       remote_calls t = if Commit request then [(input, None)] else []).
Proof.
  intros Hip Hcfg Herr.
  destruct (ProcessIpChange_trace request ip hostConfig h Hip Hcfg)
    as (input & calls & t1 & t & _ & _ & Hrun & Hin & Hl & Hc & Hn & _ & Hfan).
  simpl in Hc, Hn, Hfan. rewrite Herr in Hc, Hn, Hfan.
  exists t, input, (failure_notices (Pushover appConfig)
                      (zip (AdditionalHosts hostConfig) (map snd calls))).
  split; [exact Hrun |]. split; [exact Hin |]. split; [exact Hn |]. split.
  - unfold failure_notices. apply Forall_forall. intros n Hn'.
    apply list_elem_of_omap in Hn' as ([a [e'|]] & Hmem & Heq); [| done].
    injection Heq as <-. exists a, e'. split; [| done].
    by apply elem_of_zip_l in Hmem.
  - intros ->. simpl in Hfan. subst calls.
    rewrite Hl, Hc, app_nil_r. cbn [map]. by rewrite zip_with_nil_r.
Qed.

(** C5: the additional hosts are attempted when and only when the primary
    update failed.  After a failed primary update the remote client is
    called once per entry of [additionalHosts], in the configured order,
    each call with the primary's zone, TTL and the validated IP under that
    hostname, whatever the other calls return; after a successful one the
    run holds no payload and no call besides the primary's. *)
Theorem fanout_iff_primary_fails (request : UpdateRequest) (ip : net.IP)
    (hostConfig : HostConfig) (h : list Event) (err : option error) :
  validateIp request = Ok ip ->
  Records appConfig !! Host request = Some hostConfig ->
  fst (UpdateRoute53Record world client hostConfig (getHostname request) (Some ip)
         (Commit request) h) = err ->
  exists t input calls,
    ProcessIpChange world client appConfig request h = (tt, (h ++ t)%list) /\
    is_change_for (ZoneId hostConfig) (Host request) (net.String_ (Some ip))
      (Ttl hostConfig) input /\
    logged_payloads t = input :: map fst calls /\
    remote_calls t = ((if Commit request then [(input, err)] else []) ++ calls)%list /\
    match err with
    | Some _ =>
        Forall2 (fun host call =>
                   is_change_for (ZoneId hostConfig) host (net.String_ (Some ip))
                     (Ttl hostConfig) (fst call))
                (AdditionalHosts hostConfig) calls
    | None => calls = []
    end.
Proof.
  intros Hip Hcfg Herr.
  destruct (ProcessIpChange_trace request ip hostConfig h Hip Hcfg)
    as (input & calls & t1 & t & _ & _ & Hrun & Hin & Hl & Hc & _ & _ & Hfan).
  simpl in Hc, Hfan. rewrite Herr in Hc, Hfan.
  exists t, input, calls. repeat (split; [done |]). exact Hfan.
Qed.

(** C6: after a failed primary update, the remote calls of the run are the
    primary's and then those of the additional hosts, one each and in
    order, and the notices are the primary's failure notice followed by
    one failure notice for each additional host whose own call returned an
    error, and none for an additional host whose call succeeded. *)
Theorem additional_host_notified_iff_fails (request : UpdateRequest) (ip : net.IP)
    (hostConfig : HostConfig) (h : list Event) (e : error) :
  validateIp request = Ok ip ->
  Records appConfig !! Host request = Some hostConfig ->
  fst (UpdateRoute53Record world client hostConfig (getHostname request) (Some ip)
         (Commit request) h) = Some e ->
  exists t input calls,
    ProcessIpChange world client appConfig request h = (tt, (h ++ t)%list) /\
    remote_calls t = (input, Some e) :: calls /\
    Forall2 (fun host call =>
               is_change_for (ZoneId hostConfig) host (net.String_ (Some ip))
                 (Ttl hostConfig) (fst call))
            (AdditionalHosts hostConfig) calls /\
    notifications t =
      report (Pushover appConfig) (Host request) (Some e)
      :: failure_notices (Pushover appConfig)
           (zip (AdditionalHosts hostConfig) (map snd calls)).
Proof.
  intros Hip Hcfg Herr.
  destruct (ProcessIpChange_trace request ip hostConfig h Hip Hcfg)
    as (input & calls & t1 & t & _ & _ & Hrun & _ & _ & Hc & Hn & Hdry & Hfan).
  simpl in Hc, Hn, Hdry, Hfan. rewrite Herr in Hc, Hn, Hdry, Hfan.
  exists t, input, calls. split; [exact Hrun |].
  destruct (Commit request); [done |]. by specialize (Hdry eq_refl).
Qed.

(** C7: a valid request with [commit = false] for a configured host: the
    per-host update builds the change payload, logs it, returns no error,
    and the whole run of the orchestrator never calls the remote client. *)
Theorem dry_run_makes_no_remote_call (request : UpdateRequest) (ip : net.IP)
    (hostConfig : HostConfig) (h : list Event) :
  validateIp request = Ok ip ->
  Records appConfig !! Host request = Some hostConfig ->
  Commit request = false ->
  exists input t,
    is_change_for (ZoneId hostConfig) (Host request) (net.String_ (Some ip))
      (Ttl hostConfig) input /\
    UpdateRoute53Record world client hostConfig (getHostname request) (Some ip)
      (Commit request) h
      = (None, (h ++ [EvLog DebugLevel
                        [FInput "ChangeResourcesRecordSetInput" input] ""])%list) /\
    ProcessIpChange world client appConfig request h = (tt, (h ++ t)%list) /\
    logged_payloads t = [input] /\
    remote_calls t = [].
Proof.
  intros Hip Hcfg Hdry.
  destruct (UpdateRoute53Record_run world client hostConfig (getHostname request)
              (Some ip) (Commit request) h)
    as (input & err & t1 & Hup & Hin & _ & _ & _ & Hno).
  destruct (Hno Hdry) as [-> ->].
  destruct (ProcessIpChange_trace request ip hostConfig h Hip Hcfg)
    as (input' & calls & t1' & t & Hup' & Hl1 & Hrun & _ & Hl & Hc & _ & _ & Hfan).
  rewrite Hup in Hup', Hc, Hfan. simpl in Hup', Hc, Hfan. subst calls.
  injection Hup' as Ht1. apply app_inv_head in Ht1. subst t1'.
  injection Hl1 as <-. rewrite Hdry in Hc.
  exists input, t. by repeat (split; [done |]).
Qed.

(** C10: a valid request with [commit = false] for a configured host still
    gets the primary host's success notice, and only that one, although no
    remote DNS call was made. *)
Theorem dry_run_still_notifies_success (request : UpdateRequest) (ip : net.IP)
    (hostConfig : HostConfig) (h : list Event) :
  validateIp request = Ok ip ->
  Records appConfig !! Host request = Some hostConfig ->
  Commit request = false ->
  exists t,
    ProcessIpChange world client appConfig request h = (tt, (h ++ t)%list) /\
    notifications t = [report (Pushover appConfig) (Host request) None] /\
    remote_calls t = [].
Proof.
  intros Hip Hcfg Hdry.
  destruct (ProcessIpChange_trace request ip hostConfig h Hip Hcfg)
    as (input & calls & t1 & t & _ & _ & Hrun & _ & _ & Hc & Hn & Hnone & Hfan).
  simpl in Hc, Hn, Hnone, Hfan. rewrite (Hnone Hdry) in Hc, Hn, Hfan.
  simpl in Hfan. subst calls. rewrite Hdry in Hc.
  exists t. split; [exact Hrun |]. split; [| exact Hc].
  rewrite Hn. cbn [map]. by rewrite zip_with_nil_r.
Qed.

(** The orchestrator only appends to the trace, and a request that does
    not commit never reaches the remote client. *)
Lemma ProcessIpChange_run (request : UpdateRequest) (h : list Event) :
  exists t,
    ProcessIpChange world client appConfig request h = (tt, (h ++ t)%list) /\
    (Commit request = false -> remote_calls t = []).
Proof.
  destruct (validateIp request) as [ip|e] eqn:Hip.
  - destruct (Records appConfig !! Host request) as [hostConfig|] eqn:Hcfg.
    + destruct (ProcessIpChange_trace request ip hostConfig h Hip Hcfg)
        as (input & calls & t1 & t & _ & _ & Hrun & _ & _ & Hc & _ & Hnone & Hfan).
      exists t. split; [exact Hrun |]. intros Hdry.
      simpl in Hc, Hnone, Hfan. rewrite (Hnone Hdry) in Hc, Hfan.
      simpl in Hfan. subst calls. by rewrite Hc, Hdry.
    + unfold ProcessIpChange. rewrite Hip, Hcfg. eexists. split; [reflexivity | done].
  - unfold ProcessIpChange. rewrite Hip. eexists. split; [reflexivity | done].
Qed.

End Orchestrator.

(** ** The change builder *)

(** C8: for every zone, hostname, IP and TTL, [MakeChangeRequest] builds
    exactly two changes, both upserts: an A record named [hostname ++ "."]
    with the given TTL and the IP's string form as its single value, and a
    TXT record of the same name and TTL whose single value is the quoted
    text "Last Updated: " followed by the current time.  Building it has
    no effect on the trace. *)
Theorem MakeChangeRequest_two_upserts (world : World) (zoneId : ZoneID)
    (hostname : Hostname) (ip : option net.IP) (ttl : TTL) (h : list Event) :
  exists input a txt,
    MakeChangeRequest world zoneId hostname ip ttl h = (input, h) /\
    route53.HostedZoneId input = zoneId /\
    types.Changes (route53.ChangeBatch input) = [a; txt] /\
    types.Action a = types.ChangeActionUpsert /\
    types.Action txt = types.ChangeActionUpsert /\
    types.ResourceRecordSet_ a =
      {| types.Name := hostname ++ ".";
         types.Type_ := types.RRTypeA;
         types.TTL_ := ttl;
         types.ResourceRecords := [ {| types.Value := net.String_ ip |} ] |} /\
    types.ResourceRecordSet_ txt =
      {| types.Name := hostname ++ ".";
         types.Type_ := types.RRTypeTxt;
         types.TTL_ := ttl;
         types.ResourceRecords :=
           [ {| types.Value := quoted ("Last Updated: " ++ time_Now world h) |} ] |}.
Proof.
  do 3 eexists. split; [reflexivity |]. repeat split.
Qed.

(** ** The handler of [/nic/update] *)

(** C9: when the commit parameter is present but does not parse as a
    boolean, the handler does not refuse the request: it logs it and runs
    [ProcessIpChange] on it with [Commit = false], so that no remote DNS
    call is made. *)
Theorem unparsable_commit_is_dry_run (world : World) (client : Client)
    (appConfig : AppConfig) (form : Form) (values : list string) (e : error)
    (h : list Event) :
  form !! "commit" = Some values ->
  snd (strconv.ParseBool (FormValue form "commit")) = Some e ->
  let request :=
    {| Host := FormValue form "hostname"; IP := FormValue form "ip"; Commit := false |} in
  let received := EvLog InfoLevel [FRequest "request" request] "Received Update Request" in
  updateRequest_of form = request /\
  exists t,
    nicUpdateHandler world client appConfig form h = (tt, (h ++ received :: t)%list) /\
    ProcessIpChange world client appConfig request (h ++ [received])%list
      = (tt, ((h ++ [received]) ++ t)%list) /\
    remote_calls t = [].
Proof.
  intros Hpresent Hparse request received.
  assert (updateRequest_of form = request) as Hreq.
  { unfold updateRequest_of, request. rewrite Hpresent. f_equal.
    unfold strconv.ParseBool in *.
    repeat match type of Hparse with
           | context [if ?b then _ else _] => destruct b; simpl in Hparse; try done
           end. }
  split; [exact Hreq |].
  destruct (ProcessIpChange_run world client appConfig request (h ++ [received])%list)
    as (t & Hrun & Hdry).
  exists t. split; [| split; [exact Hrun | by apply Hdry]].
  unfold nicUpdateHandler. rewrite Hreq. unfold bind, log, emit.
  fold received. rewrite Hrun. by rewrite <- (assoc_L (++)).
Qed.

(** C3, as amended: without a commit parameter the request has
    [Commit = true]; with one that parses as a boolean, [Commit] is the
    parsed value; with one that does not parse, the request is built all
    the same, with [Commit = false]. *)
Theorem commit_of_form (form : Form) :
  Commit (updateRequest_of form) =
    match form !! "commit" with
    | None => true
    | Some _ =>
        match strconv.ParseBool (FormValue form "commit") with
        | (b, None) => b
        | (_, Some _) => false
        end
    end.
Proof.
  unfold updateRequest_of. simpl. destruct (form !! "commit"); [| reflexivity].
  unfold strconv.ParseBool.
  repeat match goal with
         | |- context [if ?b then _ else _] => destruct b; simpl; try reflexivity
         end.
Qed.

(** C3 as claimed fails: a commit parameter that is present need not parse
    as a boolean for the request to be built.  With [commit=yes] the
    specification's rule refuses the request, while the handler builds it
    with [Commit = false]. *)
Lemma commit_must_parse_counterexample :
  let form : Form := {[ "hostname" := ["example.com"]; "ip" := ["203.0.113.5"];
                        "commit" := ["yes"] ]} in
  ~ (exists b, spec_commit form = Ok b /\ Commit (updateRequest_of form) = b) /\
  updateRequest_of form =
    {| Host := "example.com"; IP := "203.0.113.5"; Commit := false |}.
Proof.
  split; [| by vm_compute].
  intros (b & Hspec & _). vm_compute in Hspec. discriminate Hspec.
Qed.

(** ** The theorems at the sample configuration *)

Lemma rejects_locally_sample :
  let request := Sample.request "2001:db8::68" true in
  (exists e, validateIp request = Err e) /\
  exists fields msg,
    ProcessIpChange Sample.world Sample.working Sample.config request []
      = (tt, ([] ++ [EvLog ErrorLevel fields msg])%list) /\
    remote_calls [EvLog ErrorLevel fields msg] = [] /\
    logged_payloads [EvLog ErrorLevel fields msg] = [] /\
    notifications [EvLog ErrorLevel fields msg] = [].
Proof.
  intros request. split; [eexists; by vm_compute |].
  apply (ProcessIpChange_rejects_locally Sample.world Sample.working Sample.config
           request []).
  left. eexists. by vm_compute.
Defined.

Lemma primary_success_sample :
  let request := Sample.request "203.0.113.5" true in
  let ip := [203; 0; 113; 5] in
  validateIp request = Ok ip /\
  Records Sample.config !! Host request = Some Sample.example_com /\
  fst (UpdateRoute53Record Sample.world Sample.working Sample.example_com
         (getHostname request) (Some ip) (Commit request) []) = None /\
  exists t input others,
    ProcessIpChange Sample.world Sample.working Sample.config request []
      = (tt, ([] ++ t)%list) /\
    is_change_for (ZoneId Sample.example_com) (Host request) (net.String_ (Some ip))
      (Ttl Sample.example_com) input /\
    notifications t = report (Pushover Sample.config) (Host request) None :: others /\
    Forall (fun n => exists a e, a ∈ AdditionalHosts Sample.example_com /\
                       n = report (Pushover Sample.config) a (Some e)) others /\
    (@None error = None ->
       others = [] /\
       logged_payloads t = [input] /\
       remote_calls t = if Commit request then [(input, None)] else []).
Proof.
  intros request ip.
  split; [by vm_compute |]. split; [by vm_compute |]. split; [by vm_compute |].
  apply (primary_outcome_notified_once Sample.world Sample.working Sample.config
           request ip Sample.example_com [] None); by vm_compute.
Defined.

Lemma fanout_after_failure_sample :
  let request := Sample.request "203.0.113.5" true in
  let ip := [203; 0; 113; 5] in
  let err := Some "AccessDenied" in
  validateIp request = Ok ip /\
  Records Sample.config !! Host request = Some Sample.example_com /\
  fst (UpdateRoute53Record Sample.world Sample.failing Sample.example_com
         (getHostname request) (Some ip) (Commit request) []) = err /\
  exists t input calls,
    ProcessIpChange Sample.world Sample.failing Sample.config request []
      = (tt, ([] ++ t)%list) /\
    is_change_for (ZoneId Sample.example_com) (Host request) (net.String_ (Some ip))
      (Ttl Sample.example_com) input /\
    logged_payloads t = input :: map fst calls /\
    remote_calls t = ((if Commit request then [(input, err)] else []) ++ calls)%list /\
    Forall2 (fun host call =>
               is_change_for (ZoneId Sample.example_com) host (net.String_ (Some ip))
                 (Ttl Sample.example_com) (fst call))
            (AdditionalHosts Sample.example_com) calls.
Proof.
  intros request ip err.
  split; [by vm_compute |]. split; [by vm_compute |]. split; [by vm_compute |].
  apply (fanout_iff_primary_fails Sample.world Sample.failing Sample.config
           request ip Sample.example_com [] err); by vm_compute.
Defined.

Lemma failure_notices_sample :
  let request := Sample.request "203.0.113.5" true in
  let ip := [203; 0; 113; 5] in
  validateIp request = Ok ip /\
  Records Sample.config !! Host request = Some Sample.example_com /\
  fst (UpdateRoute53Record Sample.world Sample.failing Sample.example_com
         (getHostname request) (Some ip) (Commit request) []) = Some "AccessDenied" /\
  exists t input calls,
    ProcessIpChange Sample.world Sample.failing Sample.config request []
      = (tt, ([] ++ t)%list) /\
    remote_calls t = (input, Some "AccessDenied") :: calls /\
    Forall2 (fun host call =>
               is_change_for (ZoneId Sample.example_com) host (net.String_ (Some ip))
                 (Ttl Sample.example_com) (fst call))
            (AdditionalHosts Sample.example_com) calls /\
    notifications t =
      report (Pushover Sample.config) (Host request) (Some "AccessDenied")
      :: failure_notices (Pushover Sample.config)
           (zip (AdditionalHosts Sample.example_com) (map snd calls)).
Proof.
  intros request ip.
  split; [by vm_compute |]. split; [by vm_compute |]. split; [by vm_compute |].
  apply (additional_host_notified_iff_fails Sample.world Sample.failing Sample.config
           request ip Sample.example_com [] "AccessDenied"); by vm_compute.
Defined.

Lemma dry_run_sample :
  let request := Sample.request "203.0.113.5" false in
  let ip := [203; 0; 113; 5] in
  validateIp request = Ok ip /\
  Records Sample.config !! Host request = Some Sample.example_com /\
  Commit request = false /\
  exists input t,
    is_change_for (ZoneId Sample.example_com) (Host request) (net.String_ (Some ip))
      (Ttl Sample.example_com) input /\
    UpdateRoute53Record Sample.world Sample.failing Sample.example_com
      (getHostname request) (Some ip) (Commit request) []
      = (None, ([] ++ [EvLog DebugLevel
                         [FInput "ChangeResourcesRecordSetInput" input] ""])%list) /\
    ProcessIpChange Sample.world Sample.failing Sample.config request []
      = (tt, ([] ++ t)%list) /\
    logged_payloads t = [input] /\
    remote_calls t = [].
Proof.
  intros request ip.
  split; [by vm_compute |]. split; [by vm_compute |]. split; [reflexivity |].
  apply (dry_run_makes_no_remote_call Sample.world Sample.failing Sample.config
           request ip Sample.example_com []); [by vm_compute | by vm_compute | reflexivity].
Defined.

Lemma dry_run_notice_sample :
  let request := Sample.request "203.0.113.5" false in
  let ip := [203; 0; 113; 5] in
  validateIp request = Ok ip /\
  Records Sample.config !! Host request = Some Sample.example_com /\
  Commit request = false /\
  exists t,
    ProcessIpChange Sample.world Sample.failing Sample.config request []
      = (tt, ([] ++ t)%list) /\
    notifications t = [report (Pushover Sample.config) (Host request) None] /\
    remote_calls t = [].
Proof.
  intros request ip.
  split; [by vm_compute |]. split; [by vm_compute |]. split; [reflexivity |].
  apply (dry_run_still_notifies_success Sample.world Sample.failing Sample.config
           request ip Sample.example_com []); [by vm_compute | by vm_compute | reflexivity].
Defined.

Lemma unparsable_commit_sample :
  let form : Form := {[ "hostname" := ["example.com"]; "ip" := ["203.0.113.5"];
                        "commit" := ["yes"] ]} in
  let e := "strconv.ParseBool: parsing " ++ quoted "yes" ++ ": invalid syntax" in
  let request :=
    {| Host := FormValue form "hostname"; IP := FormValue form "ip"; Commit := false |} in
  let received := EvLog InfoLevel [FRequest "request" request] "Received Update Request" in
  form !! "commit" = Some ["yes"] /\
  snd (strconv.ParseBool (FormValue form "commit")) = Some e /\
  updateRequest_of form = request /\
  exists t,
    nicUpdateHandler Sample.world Sample.working Sample.config form []
      = (tt, ([] ++ received :: t)%list) /\
    ProcessIpChange Sample.world Sample.working Sample.config request ([] ++ [received])%list
      = (tt, (([] ++ [received]) ++ t)%list) /\
    remote_calls t = [].
Proof.
  intros form e request received.
  split; [by vm_compute |]. split; [by vm_compute |].
  apply (unparsable_commit_is_dry_run Sample.world Sample.working Sample.config
           form ["yes"] e []); by vm_compute.
Defined.

(** * More of [main.go] *)

(** ** The bytes of a validated address *)

Lemma uint8_range (x : Z) : 0 <= uint8 x <= 255.
Proof. unfold uint8. pose proof (Z.mod_pos_bound x 256). lia. Qed.

Lemma lookup_total_range (l : list Z) (i : nat) :
  Forall (fun x => 0 <= x <= 255) l -> 0 <= l !!! i <= 255.
Proof.
  intros Hl. rewrite list_lookup_total_alt.
  destruct (l !! i) as [x|] eqn:Hx; simpl; [| done].
  by apply (Forall_lookup_1 _ _ _ _ Hl Hx).
Qed.

Lemma parseIPv4Fields_loop_range (s rest : string) :
  forall (i val pos digLen : Z) (fields out : list Z),
    netip.parseIPv4Fields_loop s rest i val pos digLen fields = Ok out ->
    Forall (fun x => 0 <= x <= 255) fields ->
    Forall (fun x => 0 <= x <= 255) out.
Proof.
  induction rest as [|c rest IH]; intros i val pos digLen fields out; simpl.
  - destruct (pos <? 3); [done |]. intros [= <-] Hf.
    apply Forall_insert; [done | apply uint8_range].
  - destruct (netip.is_digit c).
    + destruct ((digLen =? 1) && (val =? 0)); [done |].
      destruct (255 <? _); [done |]. apply IH.
    + destruct (Ascii.eqb c "."); [| done].
      destruct (_ || _); [done |]. destruct (pos =? 3); [done |].
      intros H Hf. apply (IH _ _ _ _ _ _ H).
      apply Forall_insert; [done | apply uint8_range].
Qed.

Lemma expand_ellipsis_range (ip : list Z) (i ellipsis : Z) :
  Forall (fun x => 0 <= x <= 255) ip ->
  Forall (fun x => 0 <= x <= 255) (netip.expand_ellipsis ip i ellipsis).
Proof.
  unfold netip.expand_ellipsis. intros Hip.
  assert (forall (js : list Z) (l : list Z),
            Forall (fun x => 0 <= x <= 255) l ->
            Forall (fun x => 0 <= x <= 255)
              (foldl (fun ip j => <[Z.to_nat j := 0]> ip) l js)) as Hclear.
  { induction js as [|j js IH]; intros l Hl; simpl; [done |].
    apply IH. by apply Forall_insert. }
  apply Hclear.
  generalize (reverse (seqZ ellipsis (i - ellipsis))). intros js.
  revert ip Hip. induction js as [|j js IH]; intros l Hl; simpl; [done |].
  apply IH. apply Forall_insert; [done | by apply lookup_total_range].
Qed.

Lemma parseIPv6_loop_range (fuel : nat) (input zone : string) :
  forall st st',
    netip.parseIPv6_loop fuel input zone st = Ok st' ->
    Forall (fun x => 0 <= x <= 255) (netip.v6_ip st) ->
    Forall (fun x => 0 <= x <= 255) (netip.v6_ip st').
Proof.
  induction fuel as [|fuel IH]; intros [s i e ip] st' H Hr; simpl in *.
  { destruct (16 <=? i); by injection H as <-. }
  destruct (16 <=? i); [by injection H as <- |].
  destruct (netip.hex_group s 0 0) as [[off acc]|]; [| done].
  destruct (off =? 0); [done |].
  destruct ((off <? len s) && Ascii.eqb (char_at s off) ".").
  { destruct ((e <? 0) && negb (i =? 12)); [done |].
    destruct (16 <? i + 4); [done |].
    destruct (netip.parseIPv4Fields _ _ _ _) as [sub'|] eqn:Hsub; [| done].
    injection H as <-. simpl.
    apply parseIPv4Fields_loop_range in Hsub.
    - rewrite !Forall_app. split; [by apply Forall_take |].
      split; [done | by apply Forall_drop].
    - by apply Forall_take, Forall_drop. }
  set (ip' := <[Z.to_nat (i + 1) := uint8 acc]>
                (<[Z.to_nat i := uint8 (Z.shiftr acc 8)]> ip)) in *.
  assert (Forall (fun x => 0 <= x <= 255) ip') as Hr'.
  { unfold ip'. repeat (apply Forall_insert; [| apply uint8_range]). done. }
  repeat match type of H with
         | (if ?b then _ else _) = _ => destruct b; try done
         end;
    try (injection H as <-; exact Hr');
    (apply IH in H; [exact H | exact Hr']).
Qed.

Lemma parseIPv6_range (s : string) (b : list Z) (zone : string) :
  netip.parseIPv6 s = Ok (b, zone) -> Forall (fun x => 0 <= x <= 255) b.
Proof.
  assert (Forall (fun x => 0 <= x <= 255) (replicate 16 0)) as H0.
  { apply Forall_replicate. lia. }
  unfold netip.parseIPv6.
  destruct (if negb _ then _ else _) as [[s' z]|]; [| done].
  destruct (_ && (len _ =? 0)); [by intros [= <- _] |].
  destruct (netip.parseIPv6_loop _ _ _ _) as [[s2 i e ip]|] eqn:Hloop; [| done].
  apply parseIPv6_loop_range in Hloop; [| done]. simpl in Hloop.
  destruct (negb _); [done |].
  destruct (i <? 16).
  - destruct (e <? 0); [done |]. intros [= <- _].
    by apply expand_ellipsis_range.
  - destruct (0 <=? e); [done |]. by intros [= <- _].
Qed.

(** What [validateIp] accepts, read off the two parsers. *)
Lemma validateIp_inv (request : UpdateRequest) (ip : net.IP) :
  validateIp request = Ok ip ->
  printed_quad (IP request) ip \/
  (has_byte ":" (IP request) = true /\ length ip = 4%nat /\
   exists z, netip.parseIPv6 (IP request) = Ok (v4mapped ip, z)).
Proof.
  unfold validateIp.
  destruct (net.ParseIP (IP request)) as [b|] eqn:Hparse; [| done].
  destruct (net.To4 (Some b)) as [ip'|] eqn:H4; [| done]. intros [= ->].
  apply (To4_16 b ip (ParseIP_length _ _ Hparse)) in H4 as [-> Hlen].
  unfold net.ParseIP, netip.ParseAddr in Hparse.
  destruct (netip.ParseAddr_scan _ _) as [addr|] eqn:Hscan; [| done].
  destruct (negb _); [done |]. injection Hparse as Hb.
  destruct (ParseAddr_scan_inv _ _ addr Hscan) as [(b & -> & Hb4) | (b & z & -> & Hb6 & Hc)].
  - left. unfold v4mapped in Hb. simpl in Hb. injection Hb as ->.
    by apply parseIPv4_complete.
  - right. simpl in Hb. subst b. eauto.
Qed.

Lemma validateIp_bytes (request : UpdateRequest) (ip : net.IP) :
  validateIp request = Ok ip ->
  exists a b c d,
    ip = [a; b; c; d] /\
    0 <= a <= 255 /\ 0 <= b <= 255 /\ 0 <= c <= 255 /\ 0 <= d <= 255.
Proof.
  intros [(a & b & c & d & -> & Ha & Hb & Hc & Hd & _) | (_ & Hlen & z & Hp)]%validateIp_inv.
  - by exists a, b, c, d.
  - apply parseIPv6_range in Hp. unfold v4mapped in Hp.
    rewrite !Forall_app in Hp. destruct Hp as (_ & _ & Hp).
    destruct ip as [|a [|b [|c [|d [|? ?]]]]]; try done.
    apply Forall_cons in Hp as [Ha Hp]. apply Forall_cons in Hp as [Hb Hp].
    apply Forall_cons in Hp as [Hc Hp]. apply Forall_cons in Hp as [Hd _].
    by exists a, b, c, d.
Qed.

Lemma String_printed_quad (a b c d : Z) :
  0 <= a <= 255 -> 0 <= b <= 255 -> 0 <= c <= 255 -> 0 <= d <= 255 ->
  printed_quad (net.String_ (Some [a; b; c; d])) [a; b; c; d].
Proof.
  intros Ha Hb Hc Hd. exists a, b, c, d. repeat (split; [done |]).
  unfold net.String_. simpl. unfold net.string4. simpl.
  rewrite !appendDecimal_octet, append_nil_l. by rewrite !append_assoc.
Qed.

Lemma validateIp_printed_quad (request : UpdateRequest) (ip : list Z) :
  printed_quad (IP request) ip -> validateIp request = Ok ip.
Proof.
  intros Hq. unfold validateIp.
  by rewrite (ParseIP_printed_quad _ _ Hq), (To4_v4mapped ip (printed_quad_length _ _ Hq)).
Qed.

(** X1: a validated address has exactly four bytes, each from 0 to 255,
    whichever notation the request used. *)
Theorem validated_ip_is_four_bytes (request : UpdateRequest) (ip : net.IP) :
  validateIp request = Ok ip ->
  length ip = 4%nat /\ Forall (fun x => 0 <= x <= 255) ip.
Proof.
  intros (a & b & c & d & -> & Ha & Hb & Hc & Hd)%validateIp_bytes.
  split; [done |]. repeat (constructor; [done |]). constructor.
Qed.

(** X2: the string form of a validated address is its dotted-decimal
    notation, and validating that string gives the same address again. *)
Theorem validated_ip_round_trip (request : UpdateRequest) (ip : net.IP) :
  validateIp request = Ok ip ->
  dotted_decimal (net.String_ (Some ip)) ip /\
  validateIp {| Host := Host request; IP := net.String_ (Some ip);
                Commit := Commit request |} = Ok ip.
Proof.
  intros (a & b & c & d & -> & Ha & Hb & Hc & Hd)%validateIp_bytes.
  pose proof (String_printed_quad a b c d Ha Hb Hc Hd) as Hq.
  split; [by apply dotted_decimal_printed |].
  by apply validateIp_printed_quad.
Qed.

(** X3: when the request's ip has no colon and validates, the A record
    that [MakeChangeRequest] builds for the validated address carries the
    request's ip string itself. *)
Theorem colon_free_ip_written_verbatim (world : World) (request : UpdateRequest)
    (ip : net.IP) (zoneId : ZoneID) (hostname : Hostname) (ttl : TTL) (h : list Event) :
  validateIp request = Ok ip ->
  has_byte ":" (IP request) = false ->
  exists input stamp,
    MakeChangeRequest world zoneId hostname (Some ip) ttl h = (input, h) /\
    types.Changes (route53.ChangeBatch input) =
      [ upsert types.RRTypeA (hostname ++ ".") ttl (IP request);
        upsert types.RRTypeTxt (hostname ++ ".") ttl stamp ].
Proof.
  intros Hip Hcolon.
  destruct (validateIp_inv _ _ Hip) as [Hq | (Hc & _)]; [| congruence].
  apply dotted_decimal_printed, String_dotted_decimal in Hq.
  destruct (MakeChangeRequest_run world zoneId hostname (Some ip) ttl h)
    as (input & Hrun & _ & stamp & Hchanges).
  exists input, stamp. by rewrite <- Hq.
Qed.

Lemma ParseAddr_scan_no_separator (s rest : string) :
  has_byte "." rest = false -> has_byte ":" rest = false ->
  exists e, netip.ParseAddr_scan s rest = Err e.
Proof.
  induction rest as [|c rest IH]; simpl; [eauto |].
  intros [Hd Hd']%orb_false_elim [Hc Hc']%orb_false_elim.
  rewrite Hd, Hc. destruct (Ascii.eqb c "%"); eauto.
Qed.

Lemma validateIp_unparsed (request : UpdateRequest) :
  net.ParseIP (IP request) = None ->
  validateIp request = Err ("'" ++ IP request ++ "' is not a valid IpV4 address").
Proof. unfold validateIp. by intros ->. Qed.

(** X4: a string with neither a dot nor a colon (the empty string, a
    bare number, a host name without dots) never validates. *)
Theorem ip_without_dot_or_colon_fails (request : UpdateRequest) :
  has_byte "." (IP request) = false ->
  has_byte ":" (IP request) = false ->
  validateIp request = Err ("'" ++ IP request ++ "' is not a valid IpV4 address").
Proof.
  intros Hd Hc. apply validateIp_unparsed. unfold net.ParseIP, netip.ParseAddr.
  by destruct (ParseAddr_scan_no_separator (IP request) (IP request) Hd Hc) as [e ->].
Qed.

Lemma octet_no_percent (x : Z) : 0 <= x <= 255 -> has_byte "%" (octet x) = false.
Proof. revert x. refine (octet_range_ind _ _). each_octet. Qed.

Lemma printed_quad_no_percent (s : string) (ip : list Z) :
  printed_quad s ip -> has_byte "%" s = false.
Proof.
  intros (a & b & c & d & _ & Ha & Hb & Hc & Hd & ->).
  rewrite !has_byte_append, !octet_no_percent by done. reflexivity.
Qed.

Lemma index_byte_from_found (s : string) (c : ascii) (i : Z) :
  has_byte c s = true -> 0 <= i -> i <= netip.index_byte_from s c i.
Proof.
  revert i. induction s as [|x s IH]; intros i; simpl; [done |].
  destruct (Ascii.eqb x c); simpl; [lia |].
  intros H Hi. specialize (IH (i + 1) H). lia.
Qed.

Lemma parseIPv6_zone (s : string) (b : list Z) (zone : string) :
  netip.parseIPv6 s = Ok (b, zone) -> has_byte "%" s = true -> zone <> "".
Proof.
  intros Hp Hz. unfold netip.parseIPv6 in Hp.
  pose proof (index_byte_from_found s "%" 0 Hz) as Hi.
  unfold netip.IndexByteString in Hp.
  destruct (netip.index_byte_from s "%" 0 =? -1) eqn:Heq; [lia |].
  simpl negb in Hp. cbv iota in Hp.
  destruct (String.eqb_spec (slice s (netip.index_byte_from s "%" 0 + 1) (len s)) "")
    as [| Hne]; [done |].
  destruct (_ && (len _ =? 0)); [by injection Hp as _ <- |].
  destruct (netip.parseIPv6_loop _ _ _ _) as [[s2 i e ip]|]; [| done].
  destruct (negb _); [done |].
  destruct (i <? 16).
  - destruct (e <? 0); [done |]. by injection Hp as _ <-.
  - destruct (0 <=? e); [done |]. by injection Hp as _ <-.
Qed.

(** X5: a string with a percent sign, as an IPv6 address with a zone
    has, never validates. *)
Theorem ip_with_zone_fails (request : UpdateRequest) :
  has_byte "%" (IP request) = true ->
  validateIp request = Err ("'" ++ IP request ++ "' is not a valid IpV4 address").
Proof.
  intros Hz. apply validateIp_unparsed. unfold net.ParseIP, netip.ParseAddr.
  destruct (netip.ParseAddr_scan _ _) as [addr|] eqn:Hscan; [| done].
  destruct (ParseAddr_scan_inv _ _ addr Hscan) as [(b & -> & Hb) | (b & z & -> & Hb & _)].
  - apply parseIPv4_complete, printed_quad_no_percent in Hb. congruence.
  - simpl. pose proof (parseIPv6_zone _ _ _ Hb Hz) as Hne.
    by destruct (String.eqb_spec z "").
Qed.

Lemma sent_messages_app (t1 t2 : list Event) :
  sent_messages (t1 ++ t2) = (sent_messages t1 ++ sent_messages t2)%list.
Proof. apply omap_app. Qed.


(** X7: [NotifyPushover] calls the Pushover transport exactly once when
    both credentials are set and never otherwise; the message carries the
    host and tells success from failure, with normal priority, and not the
    text of the error; the remote DNS client is never called. *)
Theorem NotifyPushover_transport (world : World) (config : PushoverConfig)
    (host : string) (err : option error) (h : list Event) :
  exists t,
    NotifyPushover world config host err h = (tt, (h ++ t)%list) /\
    remote_calls t = [] /\
    sent_messages t =
      if configured config then
        [ (ApiToken config, RecipientKey config,
           {| pushover.Message_ := notification_text host err;
              pushover.Priority := pushover.PriorityNormal |}) ]
      else [].
Proof.
  unfold NotifyPushover, configured, notification_text.
  destruct (String.eqb (ApiToken config) "") eqn:Ha; simpl.
  { eexists; split; [reflexivity | done]. }
  destruct (String.eqb (RecipientKey config) "") eqn:Hr; simpl.
  { eexists; split; [reflexivity | done]. }
  unfold bind, history, log, emit, ret.
  destruct (SendMessage world h _ _ _) as [response [e|]] eqn:Hs;
    rewrite <- ?(assoc_L (++)); simpl;
    (eexists; split; [reflexivity | by destruct err]).
Qed.

Lemma no_notice_no_message (t : list Event) :
  Forall (fun n => n = NotConfigured) (notifications t) -> sent_messages t = [].
Proof.
  induction t as [|e t IH]; [done |].
  unfold notifications, sent_messages in *. cbn [omap list_omap].
  destruct (sent_message e) as [m|] eqn:Hs.
  - destruct e; try done. simpl. by intros [[=] _]%Forall_cons.
  - destruct (notice_of e); [intros [_ H]%Forall_cons; by apply IH | apply IH].
Qed.

(** X8: with a credential missing, no run of [ProcessIpChange] calls the
    Pushover transport, whatever the request and the outcomes. *)
Theorem unconfigured_run_never_sends (world : World) (client : Client)
    (appConfig : AppConfig) (request : UpdateRequest) (h : list Event) :
  configured (Pushover appConfig) = false ->
  exists t,
    ProcessIpChange world client appConfig request h = (tt, (h ++ t)%list) /\
    sent_messages t = [].
Proof.
  intros Hoff.
  destruct (validateIp request) as [ip|e] eqn:Hip.
  - destruct (Records appConfig !! Host request) as [hostConfig|] eqn:Hcfg.
    + destruct (ProcessIpChange_trace world client appConfig request ip hostConfig h
                  Hip Hcfg)
        as (input & calls & t1 & t & _ & _ & Hrun & _ & _ & _ & Hn & _).
      exists t. split; [exact Hrun |]. apply no_notice_no_message. rewrite Hn.
      constructor; [unfold report; by rewrite Hoff |].
      unfold failure_notices. apply Forall_forall. intros n Hin.
      apply list_elem_of_omap in Hin as ([a [e'|]] & _ & Heq); [| done].
      injection Heq as <-. unfold report. by rewrite Hoff.
    + unfold ProcessIpChange. rewrite Hip, Hcfg. eexists. split; [reflexivity | done].
  - unfold ProcessIpChange. rewrite Hip. eexists. split; [reflexivity | done].
Qed.

(** X9: a request with no ip parameter, or an empty one, is logged and
    refused as "Invalid IP specified": the handler does nothing else. *)
Theorem request_without_ip_only_logs (world : World) (client : Client)
    (appConfig : AppConfig) (form : Form) (h : list Event) :
  FormValue form "ip" = "" ->
  let request := updateRequest_of form in
  nicUpdateHandler world client appConfig form h
    = (tt, (h ++ [ EvLog InfoLevel [FRequest "request" request] "Received Update Request";
                   EvLog ErrorLevel
                     [FRequest "request" request; FErr "'' is not a valid IpV4 address"]
                     "Invalid IP specified" ])%list).
Proof.
  intros Hip request.
  assert (validateIp request = Err "'' is not a valid IpV4 address") as Hval.
  { unfold validateIp. replace (IP request) with "" by (symmetry; exact Hip).
    reflexivity. }
  unfold nicUpdateHandler, ProcessIpChange. fold request. rewrite Hval.
  unfold bind, log, emit. by rewrite <- (assoc_L (++)).
Qed.

(** X10: the request commits exactly when the commit parameter is
    absent or its first value is one of 1, t, T, true, TRUE, True. *)
Theorem commit_enabled_iff (form : Form) :
  Commit (updateRequest_of form) = true <->
    form !! "commit" = None \/
    FormValue form "commit" ∈ ["1"; "t"; "T"; "true"; "TRUE"; "True"].
Proof.
  unfold updateRequest_of. simpl. unfold strconv.ParseBool.
  destruct (form !! "commit") as [values|] eqn:Hc; [| by split; [left |]].
  set (v := FormValue form "commit").
  rewrite !elem_of_cons, elem_of_nil.
  destruct (String.eqb_spec v "1"); [simpl; split; [right |]; tauto |].
  destruct (String.eqb_spec v "t"); [simpl; split; [right |]; tauto |].
  destruct (String.eqb_spec v "T"); [simpl; split; [right |]; tauto |].
  destruct (String.eqb_spec v "true"); [simpl; split; [right |]; tauto |].
  destruct (String.eqb_spec v "TRUE"); [simpl; split; [right |]; tauto |].
  destruct (String.eqb_spec v "True"); [simpl; split; [right |]; tauto |].
  simpl. split; [| intros [? | ?]; [done | tauto]].
  by repeat match goal with
            | |- context [if ?b then _ else _] => destruct b; simpl
            end.
Qed.

(** ** Slices of a string in three parts *)

Lemma substring_prefix (b c : string) :
  String.substring 0 (String.length b) (b ++ c) = b.
Proof.
  induction b as [|y b IH]; [by destruct c |].
  rewrite append_cons. simpl. by rewrite IH.
Qed.

Lemma substring_mid (a b c : string) :
  String.substring (String.length a) (String.length b) (a ++ b ++ c) = b.
Proof.
  induction a as [|x a IH]; [exact (substring_prefix b c) |].
  rewrite append_cons. exact IH.
Qed.

Lemma slice_mid (a b c : string) : slice (a ++ b ++ c) (len a) (len a + len b) = b.
Proof.
  unfold slice, len. replace (Z.of_nat (String.length a) + Z.of_nat (String.length b)
                              - Z.of_nat (String.length a))
    with (Z.of_nat (String.length b)) by lia.
  rewrite !Nat2Z.id. apply substring_mid.
Qed.

Lemma slice_tail (a b : string) : slice (a ++ b) (len a) (len (a ++ b)) = b.
Proof.
  rewrite len_append. rewrite <- (append_nil_r b) at 1. by rewrite slice_mid.
Qed.

Lemma slice_head (a c : string) : slice (a ++ c) 0 (len a) = a.
Proof. apply (slice_mid "" a c). Qed.

(** ** [bytewise] and [all_bytes] *)

Lemma bytewise_append (f : ascii -> ascii) (a b : string) :
  bytewise f (a ++ b) = bytewise f a ++ bytewise f b.
Proof.
  induction a as [|x a IH]; [done |]. rewrite append_cons. simpl.
  by rewrite IH, append_cons.
Qed.

Lemma all_bytes_append (p : ascii -> bool) (a b : string) :
  all_bytes p (a ++ b) = all_bytes p a && all_bytes p b.
Proof.
  induction a as [|x a IH]; [done |]. rewrite append_cons. simpl.
  by rewrite IH, andb_assoc.
Qed.

Lemma bytewise_id (f : ascii -> ascii) (p : ascii -> bool) (s : string) :
  (forall c, p c = true -> f c = c) -> all_bytes p s = true -> bytewise f s = s.
Proof.
  intros Hf. induction s as [|x s IH]; [done |]. simpl.
  intros [Hx Hs]%andb_prop. by rewrite (Hf x Hx), IH.
Qed.

Lemma bytewise_compose (f g : ascii -> ascii) (s : string) :
  bytewise f (bytewise g s) = bytewise (fun c => f (g c)) s.
Proof. induction s as [|x s IH]; [done |]. simpl. by rewrite IH. Qed.

Lemma bytewise_ext (f g : ascii -> ascii) (s : string) :
  (forall c, f c = g c) -> bytewise f s = bytewise g s.
Proof. intros H. induction s as [|x s IH]; [done |]. simpl. by rewrite H, IH. Qed.

Lemma len_bytewise (f : ascii -> ascii) (s : string) : len (bytewise f s) = len s.
Proof.
  induction s as [|x s IH]; [done |]. simpl bytewise. by rewrite !len_cons, IH.
Qed.

(** ** [strings.ToLower] on an ASCII string *)

Lemma lower_byte_other (c : ascii) :
  negb (strings.is_upper c) = true -> lower_byte c = c.
Proof. unfold lower_byte. by destruct (strings.is_upper c). Qed.

Lemma ToLower_scan_ascii (s : string) (acc : bool) :
  all_bytes is_ascii_byte s = true ->
  strings.ToLower_scan s acc
    = (true, acc || negb (all_bytes (fun c => negb (strings.is_upper c)) s)).
Proof.
  revert acc. induction s as [|x s IH]; intros acc; simpl.
  { intros _. by rewrite orb_false_r. }
  unfold is_ascii_byte at 1. intros [Hx Hs]%andb_prop.
  rewrite (proj2 (Z.leb_gt 128 (byte_of x))) by lia.
  rewrite IH by done. f_equal.
  destruct acc, (strings.is_upper x); simpl; try done.
Qed.

Lemma ToLower_loop_spec (s rest : string) :
  forall (p1 p2 b : string) (i pos : Z),
    s = p1 ++ p2 ++ rest -> pos = len p1 -> i = len p1 + len p2 ->
    all_bytes (fun c => negb (strings.is_upper c)) p2 = true ->
    b = bytewise lower_byte p1 ->
    let '(b', pos') := strings.ToLower_loop s rest i pos b in
    (if pos' <? len s then b' ++ slice s pos' (len s) else b') = bytewise lower_byte s.
Proof.
  induction rest as [|c rest IH]; intros p1 p2 b i pos Hs Hpos Hi Hp2 Hb.
  - simpl. rewrite append_nil_r in Hs.
    assert (bytewise lower_byte s = b ++ p2) as ->.
    { rewrite Hs, bytewise_append, <- Hb. f_equal.
      exact (bytewise_id _ _ _ lower_byte_other Hp2). }
    subst s pos. rewrite slice_tail, len_append.
    destruct (Z.ltb_spec (len p1) (len p1 + len p2)); [done |].
    assert (len p2 = 0) as ->%len_zero by (pose proof (len_nonneg p2); lia).
    by rewrite append_nil_r.
  - assert (slice s pos i = p2) as Hslice.
    { subst s pos i. apply slice_mid. }
    assert (String c rest = String c "" ++ rest) as Hsplit by reflexivity.
    simpl. destruct (strings.is_upper c) eqn:Hup.
    + apply (IH (p1 ++ p2 ++ String c "") "").
      * rewrite Hs, Hsplit, !append_assoc. by rewrite append_nil_l.
      * rewrite !len_append, len_cons. change (len "") with 0. lia.
      * rewrite !len_append, len_cons. change (len "") with 0. lia.
      * done.
      * rewrite !bytewise_append, <- Hb, (bytewise_id _ _ _ lower_byte_other Hp2).
        simpl bytewise.
        assert ((if pos <? i then b ++ slice s pos i else b) = b ++ p2) as ->.
        { rewrite Hslice. destruct (Z.ltb_spec pos i); [done |].
          assert (len p2 = 0) as ->%len_zero by (pose proof (len_nonneg p2); lia).
          by rewrite append_nil_r. }
        rewrite append_assoc. do 2 f_equal.
        unfold lower_byte. rewrite Hup. do 3 f_equal.
        unfold strings.is_upper in Hup. apply andb_prop in Hup as [H1 H2].
        unfold uint8. rewrite Z.mod_small; lia.
    + apply (IH p1 (p2 ++ String c "")).
      * rewrite Hs, Hsplit, !append_assoc. done.
      * done.
      * rewrite !len_append, len_cons. change (len "") with 0. lia.
      * rewrite all_bytes_append, Hp2. simpl. by rewrite Hup.
      * done.
Qed.

Lemma ToLower_ascii (mapLower : string -> string) (s : string) :
  all_bytes is_ascii_byte s = true ->
  strings.ToLower mapLower s = bytewise lower_byte s.
Proof.
  intros Hs. unfold strings.ToLower. rewrite (ToLower_scan_ascii s false Hs). simpl.
  destruct (all_bytes (fun c => negb (strings.is_upper c)) s) eqn:Hup; simpl.
  - symmetry. exact (bytewise_id _ _ _ lower_byte_other Hup).
  - pose proof (ToLower_loop_spec s s "" "" "" 0 0) as Hloop.
    destruct (strings.ToLower_loop s s 0 0 "") as [b pos]. by apply Hloop.
Qed.

(** ** [strings.ReplaceAll] of one byte by one byte *)

Lemma Count_nonneg (s : string) (c : ascii) : 0 <= strings.Count s c.
Proof. induction s as [|x s IH]; simpl; [lia |]. destruct (Ascii.eqb x c); lia. Qed.

Lemma Count_zero (s : string) (c : ascii) :
  strings.Count s c = 0 -> all_bytes (fun x => negb (Ascii.eqb x c)) s = true.
Proof.
  induction s as [|x s IH]; simpl; [done |].
  pose proof (Count_nonneg s c). destruct (Ascii.eqb x c); simpl; [lia |].
  intros H0. apply IH. lia.
Qed.

Lemma replace_byte_other (old new c : ascii) :
  negb (Ascii.eqb c old) = true -> replace_byte old new c = c.
Proof. unfold replace_byte. by destruct (Ascii.eqb c old). Qed.

Lemma index_byte_from_split (q1 q2 : string) (c : ascii) (i : Z) :
  has_byte c q1 = false ->
  netip.index_byte_from (q1 ++ String c q2) c i = i + len q1.
Proof.
  revert i. induction q1 as [|x q1 IH]; intros i.
  - intros _. rewrite append_nil_l. simpl. rewrite Ascii.eqb_refl.
    change (len "") with 0. lia.
  - rewrite append_cons. simpl. intros [Hx Hq]%orb_false_elim. rewrite Hx.
    rewrite (IH _ Hq), len_cons. lia.
Qed.

Lemma Count_split (q : string) (c : ascii) :
  0 < strings.Count q c ->
  exists q1 q2,
    q = q1 ++ String c q2 /\ has_byte c q1 = false /\
    strings.Count q c = 1 + strings.Count q2 c.
Proof.
  induction q as [|x q IH]; simpl; [lia |].
  destruct (Ascii.eqb_spec x c) as [-> | Hne].
  - intros _. by exists "", q.
  - intros Hpos. destruct IH as (q1 & q2 & -> & Hq1 & Hcount); [lia |].
    exists (String x q1), q2. rewrite append_cons. simpl.
    rewrite (proj2 (Ascii.eqb_neq x c) Hne), Hq1. split; [done |]. split; [done | lia].
Qed.

Lemma bytewise_no_old (old new : ascii) (q : string) :
  has_byte old q = false -> bytewise (replace_byte old new) q = q.
Proof.
  intros Hq. apply (bytewise_id _ (fun x => negb (Ascii.eqb x old)));
    [apply replace_byte_other |].
  induction q as [|x q IH]; [done |]. simpl in *.
  apply orb_false_elim in Hq as [-> Hq]. by rewrite IH.
Qed.

Lemma Replace_loop_spec (s : string) (old new : ascii) (n : nat) :
  forall (p q b : string) (start : Z),
    s = p ++ q -> start = len p ->
    b = bytewise (replace_byte old new) p ->
    strings.Count q old = Z.of_nat n ->
    let '(b', start') := strings.Replace_loop n s old (String new "") start b in
    b' ++ slice s start' (len s) = bytewise (replace_byte old new) s.
Proof.
  induction n as [|n IH]; intros p q b start Hs Hstart Hb Hcount.
  - simpl. subst s start. rewrite slice_tail, bytewise_append, <- Hb. f_equal.
    symmetry. apply (bytewise_id _ _ _ (replace_byte_other old new)).
    by apply Count_zero.
  - destruct (Count_split q old) as (q1 & q2 & -> & Hq1 & Hc); [lia |].
    assert (slice s start (len s) = q1 ++ String old q2) as Htail.
    { subst s start. apply slice_tail. }
    cbn [strings.Replace_loop]. rewrite Htail.
    unfold netip.IndexByteString. rewrite (index_byte_from_split _ _ _ _ Hq1).
    replace (start + (0 + len q1)) with (len p + len q1) by lia.
    assert (slice s start (len p + len q1) = q1) as ->.
    { subst s start. apply slice_mid. }
    assert (String old q2 = String old "" ++ q2) as Hsplit by reflexivity.
    apply (IH (p ++ q1 ++ String old "") q2).
    + rewrite Hs, Hsplit, !append_assoc. done.
    + rewrite !len_append, len_cons. change (len "") with 0. lia.
    + rewrite !bytewise_append, <- Hb, (bytewise_no_old old new q1 Hq1).
      simpl bytewise. unfold replace_byte at 1. rewrite Ascii.eqb_refl.
      by rewrite append_assoc.
    + lia.
Qed.

Lemma ReplaceAll_bytewise (s : string) (old new : ascii) :
  strings.ReplaceAll s old (String new "") = bytewise (replace_byte old new) s.
Proof.
  unfold strings.ReplaceAll.
  destruct (String.eqb_spec (String old "") (String new "")) as [[= ->] | _].
  { symmetry. apply (bytewise_id _ (fun _ => true)).
    - intros c _. unfold replace_byte. by destruct (Ascii.eqb_spec c new).
    - clear. by induction s. }
  destruct (Z.eqb_spec (strings.Count s old) 0) as [H0 | Hne].
  { symmetry. apply (bytewise_id _ _ _ (replace_byte_other old new)).
    by apply Count_zero. }
  pose proof (Replace_loop_spec s old new (Z.to_nat (strings.Count s old))
                "" s "" 0) as Hloop.
  destruct (strings.Replace_loop _ _ _ _ _ _) as [b start].
  apply Hloop; try done. pose proof (Count_nonneg s old). lia.
Qed.

Lemma bytewise_has_no (old new : ascii) (s : string) :
  old <> new -> has_byte old (bytewise (replace_byte old new) s) = false.
Proof.
  intros Hne. induction s as [|x s IH]; [done |]. simpl. rewrite IH, orb_false_r.
  unfold replace_byte. destruct (Ascii.eqb_spec x old) as [-> | Hx].
  - apply Ascii.eqb_neq. congruence.
  - by apply Ascii.eqb_neq.
Qed.

(** ** [strings.TrimPrefix] *)

Lemma substring_full (s : string) : String.substring 0 (String.length s) s = s.
Proof. induction s as [|c s IH]; simpl; [done | by rewrite IH]. Qed.

Lemma substring_split (s : string) :
  forall n : nat, (n <= String.length s)%nat ->
    s = String.substring 0 n s ++ String.substring n (String.length s - n) s.
Proof.
  induction s as [|c s IH]; intros n Hn.
  - simpl in Hn. assert (n = 0%nat) as -> by lia. reflexivity.
  - destruct n as [|n].
    + rewrite Nat.sub_0_r, substring_full. reflexivity.
    + simpl in Hn |- *. rewrite append_cons. f_equal. apply IH. lia.
Qed.

Lemma HasPrefix_inv (s prefix : string) :
  strings.HasPrefix s prefix = true -> s = prefix ++ strings.TrimPrefix s prefix.
Proof.
  intros H. unfold strings.TrimPrefix. rewrite H.
  unfold strings.HasPrefix in H. apply andb_prop in H as [Hlen Heq].
  apply Z.leb_le in Hlen. apply String.eqb_eq in Heq.
  rewrite <- Heq at 1. unfold slice, len in *.
  rewrite Z.sub_0_r, !Nat2Z.id. change (Z.to_nat 0) with 0%nat.
  rewrite <- Nat2Z.inj_sub by lia. rewrite Nat2Z.id.
  apply substring_split. lia.
Qed.

Lemma TrimPrefix_append (prefix rest : string) :
  strings.TrimPrefix (prefix ++ rest) prefix = rest.
Proof.
  unfold strings.TrimPrefix, strings.HasPrefix.
  rewrite slice_head, String.eqb_refl, slice_tail, len_append.
  pose proof (len_nonneg rest). by rewrite (proj2 (Z.leb_le _ _)) by lia.
Qed.

Lemma TrimPrefix_all_bytes (p : ascii -> bool) (s prefix : string) :
  all_bytes p s = true -> all_bytes p (strings.TrimPrefix s prefix) = true.
Proof.
  intros Hs. destruct (strings.HasPrefix s prefix) eqn:Hp.
  - rewrite (HasPrefix_inv _ _ Hp), all_bytes_append in Hs.
    by apply andb_prop in Hs as [_ ?].
  - unfold strings.TrimPrefix. by rewrite Hp.
Qed.

(** ** [EnvVarTransformer] *)

Lemma key_byte_compose (c : ascii) : replace_byte "_" "." (lower_byte c) = key_byte c.
Proof.
  destruct c as [b0 b1 b2 b3 b4 b5 b6 b7].
  destruct b0, b1, b2, b3, b4, b5, b6, b7; reflexivity.
Qed.

Lemma EnvVarTransformer_key (mapLower : string -> string) (k v : string) :
  all_bytes is_ascii_byte k = true ->
  EnvVarTransformer mapLower k v
    = (bytewise key_byte (strings.TrimPrefix k ENV_PREFIX), v).
Proof.
  intros Hk. unfold EnvVarTransformer. f_equal.
  rewrite ReplaceAll_bytewise, ToLower_ascii by by apply TrimPrefix_all_bytes.
  rewrite bytewise_compose. apply bytewise_ext, key_byte_compose.
Qed.

(** X11: for a variable name made of the prefix and ASCII bytes,
    [EnvVarTransformer] drops the prefix and maps the rest byte by byte:
    an underscore becomes a dot, an upper-case letter its lower-case one,
    every other byte stays; the key is as long as the rest. *)
Theorem EnvVarTransformer_prefixed (mapLower : string -> string) (rest v : string) :
  all_bytes is_ascii_byte rest = true ->
  EnvVarTransformer mapLower (ENV_PREFIX ++ rest) v = (bytewise key_byte rest, v) /\
  len (fst (EnvVarTransformer mapLower (ENV_PREFIX ++ rest) v)) = len rest.
Proof.
  intros Hrest.
  assert (EnvVarTransformer mapLower (ENV_PREFIX ++ rest) v = (bytewise key_byte rest, v))
    as ->.
  { rewrite EnvVarTransformer_key, TrimPrefix_append; [done |].
    by rewrite all_bytes_append, Hrest. }
  split; [done | apply len_bytewise].
Qed.

(** X12: the key [EnvVarTransformer] returns never has an underscore,
    for every variable name, and the value is returned unchanged. *)
Theorem EnvVarTransformer_no_underscore (mapLower : string -> string) (k v : string) :
  has_byte "_" (fst (EnvVarTransformer mapLower k v)) = false /\
  snd (EnvVarTransformer mapLower k v) = v.
Proof.
  split; [| done]. unfold EnvVarTransformer. simpl fst.
  rewrite ReplaceAll_bytewise. by apply bytewise_has_no.
Qed.

Lemma key_byte_fixed (c : ascii) : key_byte (key_byte c) = key_byte c.
Proof.
  destruct c as [b0 b1 b2 b3 b4 b5 b6 b7].
  destruct b0, b1, b2, b3, b4, b5, b6, b7; reflexivity.
Qed.

Lemma key_byte_ascii (c : ascii) : is_ascii_byte c = true -> is_ascii_byte (key_byte c) = true.
Proof.
  destruct c as [b0 b1 b2 b3 b4 b5 b6 b7].
  destruct b0, b1, b2, b3, b4, b5, b6, b7; (reflexivity || discriminate).
Qed.

Lemma key_byte_not_underscore (c : ascii) : Ascii.eqb (key_byte c) "_" = false.
Proof.
  destruct c as [b0 b1 b2 b3 b4 b5 b6 b7].
  destruct b0, b1, b2, b3, b4, b5, b6, b7; reflexivity.
Qed.

Lemma bytewise_key_ascii (s : string) :
  all_bytes is_ascii_byte s = true -> all_bytes is_ascii_byte (bytewise key_byte s) = true.
Proof.
  induction s as [|x s IH]; [done |]. simpl. intros [Hx Hs]%andb_prop.
  by rewrite (key_byte_ascii x Hx), IH.
Qed.

Lemma bytewise_key_no_underscore (s : string) : has_byte "_" (bytewise key_byte s) = false.
Proof.
  induction s as [|x s IH]; [done |]. simpl. by rewrite key_byte_not_underscore, IH.
Qed.

(** X13: on ASCII names [EnvVarTransformer] is idempotent: a key it
    returned is returned as it is. *)
Theorem EnvVarTransformer_idempotent (mapLower : string -> string) (k v : string) :
  all_bytes is_ascii_byte k = true ->
  EnvVarTransformer mapLower (fst (EnvVarTransformer mapLower k v)) v
    = EnvVarTransformer mapLower k v.
Proof.
  intros Hk. rewrite (EnvVarTransformer_key mapLower k v Hk). simpl fst.
  set (t := strings.TrimPrefix k ENV_PREFIX).
  assert (all_bytes is_ascii_byte t = true) as Ht by by apply TrimPrefix_all_bytes.
  rewrite EnvVarTransformer_key by by apply bytewise_key_ascii.
  assert (strings.TrimPrefix (bytewise key_byte t) ENV_PREFIX = bytewise key_byte t)
    as ->.
  { destruct (strings.HasPrefix (bytewise key_byte t) ENV_PREFIX) eqn:Hp.
    - pose proof (bytewise_key_no_underscore t) as Hno.
      rewrite (HasPrefix_inv _ _ Hp), has_byte_append in Hno. done.
    - unfold strings.TrimPrefix. by rewrite Hp. }
  rewrite bytewise_compose. f_equal. apply bytewise_ext, key_byte_fixed.
Qed.

(** X14: when [LoadAppConfig] returns, the file was loaded, the port is
    positive (the configured one, or 8080 when that was not positive) and
    the records and the Pushover credentials are those unmarshalled. *)
Theorem LoadAppConfig_port_positive (k : Koanf) (appConfig : AppConfig)
    (logs : list StartupLog) :
  LoadAppConfig k = (Some appConfig, logs) ->
  file_Load k = None /\
  0 < Port appConfig /\
  Records appConfig = Records (Unmarshal k) /\
  Pushover appConfig = Pushover (Unmarshal k) /\
  (0 < Port (Unmarshal k) -> appConfig = Unmarshal k) /\
  (Port (Unmarshal k) <= 0 -> Port appConfig = DEFAULT_PORT).
Proof.
  unfold LoadAppConfig. destruct (file_Load k); [done |].
  destruct (Z.leb_spec (Port (Unmarshal k)) 0); intros [= <- _]; simpl;
    repeat split; try done; unfold DEFAULT_PORT; lia.
Qed.

(** X15: in every run of [ProcessIpChange] that commits, the payloads
    sent to the remote client are exactly the payloads logged, in order;
    in a run that does not commit nothing is sent. *)
Theorem payloads_sent_were_logged (world : World) (client : Client)
    (appConfig : AppConfig) (request : UpdateRequest) (h : list Event) :
  exists t,
    ProcessIpChange world client appConfig request h = (tt, (h ++ t)%list) /\
    map fst (remote_calls t) = if Commit request then logged_payloads t else [].
Proof.
  destruct (validateIp request) as [ip|e] eqn:Hip.
  - destruct (Records appConfig !! Host request) as [hostConfig|] eqn:Hcfg.
    + destruct (ProcessIpChange_trace world client appConfig request ip hostConfig h
                  Hip Hcfg)
        as (input & calls & t1 & t & _ & _ & Hrun & _ & Hl & Hc & _ & Hnone & Hfan).
      exists t. split; [exact Hrun |]. rewrite Hl, Hc.
      destruct (Commit request) eqn:Hcm; [done |].
      cbv zeta in Hnone, Hfan. rewrite (Hnone eq_refl) in Hfan.
      unfold fanout_calls in Hfan. by subst calls.
    + unfold ProcessIpChange. rewrite Hip, Hcfg. eexists. split; [reflexivity |].
      by destruct (Commit request).
  - unfold ProcessIpChange. rewrite Hip. eexists. split; [reflexivity |].
    by destruct (Commit request).
Qed.

(** X16: a request without commit parameter, with a valid ip and a
    configured host, reaches the remote client: the first remote call of
    the handler's run is the change of the requested host. *)
Theorem request_without_commit_is_sent (world : World) (client : Client)
    (appConfig : AppConfig) (form : Form) (ip : net.IP) (hostConfig : HostConfig)
    (h : list Event) :
  form !! "commit" = None ->
  validateIp (updateRequest_of form) = Ok ip ->
  Records appConfig !! FormValue form "hostname" = Some hostConfig ->
  exists t input err calls,
    nicUpdateHandler world client appConfig form h = (tt, (h ++ t)%list) /\
    is_change_for (ZoneId hostConfig) (FormValue form "hostname")
      (net.String_ (Some ip)) (Ttl hostConfig) input /\
    remote_calls t = (input, err) :: calls.
Proof.
  intros Hcommit Hip Hcfg.
  set (request := updateRequest_of form) in *.
  set (received := EvLog InfoLevel [FRequest "request" request] "Received Update Request").
  assert (Commit request = true) as Htrue.
  { unfold request, updateRequest_of. simpl. by rewrite Hcommit. }
  destruct (ProcessIpChange_trace world client appConfig request ip hostConfig
              (h ++ [received])%list Hip Hcfg)
    as (input & calls & t1 & t & _ & _ & Hrun & Hin & _ & Hc & _).
  rewrite Htrue in Hc.
  exists (received :: t), input. eexists. exists calls.
  split; [| split; [exact Hin | exact Hc]].
  unfold nicUpdateHandler. fold request. unfold bind, log, emit. fold received.
  rewrite Hrun. by rewrite <- (assoc_L (++)).
Qed.

(** ** These theorems at the samples *)

Lemma validated_ip_sample :
  let request := Sample.request "::ffff:203.0.113.5" true in
  let ip := [203; 0; 113; 5] in
  validateIp request = Ok ip /\
  length ip = 4%nat /\ Forall (fun x => 0 <= x <= 255) ip.
Proof.
  intros request ip. split; [by vm_compute |].
  apply (validated_ip_is_four_bytes request ip). by vm_compute.
Defined.

Lemma round_trip_sample :
  let request := Sample.request "0:0:0:0:0:ffff:cb00:7105" true in
  let ip := [203; 0; 113; 5] in
  validateIp request = Ok ip /\
  net.String_ (Some ip) = "203.0.113.5" /\
  dotted_decimal (net.String_ (Some ip)) ip /\
  validateIp {| Host := Host request; IP := net.String_ (Some ip);
                Commit := Commit request |} = Ok ip.
Proof.
  intros request ip. split; [by vm_compute |]. split; [by vm_compute |].
  apply (validated_ip_round_trip request ip). by vm_compute.
Defined.

Lemma verbatim_sample :
  let request := Sample.request "203.0.113.5" true in
  let ip := [203; 0; 113; 5] in
  validateIp request = Ok ip /\
  has_byte ":" (IP request) = false /\
  exists input stamp,
    MakeChangeRequest Sample.world "Z1" "example.com" (Some ip) 300 [] = (input, []) /\
    types.Changes (route53.ChangeBatch input) =
      [ upsert types.RRTypeA ("example.com" ++ ".") 300 (IP request);
        upsert types.RRTypeTxt ("example.com" ++ ".") 300 stamp ].
Proof.
  intros request ip. split; [by vm_compute |]. split; [by vm_compute |].
  apply (colon_free_ip_written_verbatim Sample.world request ip "Z1" "example.com" 300 []);
    by vm_compute.
Defined.

Lemma no_separator_sample :
  let request := Sample.request "3405803781" true in
  has_byte "." (IP request) = false /\
  has_byte ":" (IP request) = false /\
  validateIp request = Err ("'" ++ IP request ++ "' is not a valid IpV4 address").
Proof.
  intros request. split; [by vm_compute |]. split; [by vm_compute |].
  apply (ip_without_dot_or_colon_fails request); by vm_compute.
Defined.

Lemma zone_sample :
  let request := Sample.request "::ffff:203.0.113.5%eth0" true in
  has_byte "%" (IP request) = true /\
  validateIp request = Err ("'" ++ IP request ++ "' is not a valid IpV4 address").
Proof.
  intros request. split; [by vm_compute |].
  apply (ip_with_zone_fails request). by vm_compute.
Defined.

Lemma unconfigured_sample :
  let request := Sample.request "203.0.113.5" true in
  configured (Pushover Sample2.silent_config) = false /\
  exists t,
    ProcessIpChange Sample.world Sample.failing Sample2.silent_config request []
      = (tt, ([] ++ t)%list) /\
    sent_messages t = [].
Proof.
  intros request. split; [by vm_compute |].
  apply (unconfigured_run_never_sends Sample.world Sample.failing Sample2.silent_config
           request []). by vm_compute.
Defined.

Lemma no_ip_sample :
  let form : Form := {[ "hostname" := ["example.com"] ]} in
  let request := updateRequest_of form in
  FormValue form "ip" = "" /\
  nicUpdateHandler Sample.world Sample.working Sample.config form []
    = (tt, ([] ++ [ EvLog InfoLevel [FRequest "request" request] "Received Update Request";
                    EvLog ErrorLevel
                      [FRequest "request" request; FErr "'' is not a valid IpV4 address"]
                      "Invalid IP specified" ])%list).
Proof.
  intros form request. split; [by vm_compute |].
  apply (request_without_ip_only_logs Sample.world Sample.working Sample.config form []).
  by vm_compute.
Defined.

Lemma prefixed_sample :
  let rest := "PUSHOVER_API-TOKEN" in
  let mapLower := fun s : string => s in
  all_bytes is_ascii_byte rest = true /\
  fst (EnvVarTransformer mapLower (ENV_PREFIX ++ rest) "secret") = "pushover.api-token" /\
  EnvVarTransformer mapLower (ENV_PREFIX ++ rest) "secret"
    = (bytewise key_byte rest, "secret") /\
  len (fst (EnvVarTransformer mapLower (ENV_PREFIX ++ rest) "secret")) = len rest.
Proof.
  intros rest mapLower. split; [by vm_compute |]. split; [by vm_compute |].
  apply (EnvVarTransformer_prefixed mapLower rest "secret"). by vm_compute.
Defined.

Lemma idempotent_sample :
  let k := "UNIFI_R53_DNS_APP_PORT" in
  let mapLower := fun s : string => s in
  all_bytes is_ascii_byte k = true /\
  EnvVarTransformer mapLower (fst (EnvVarTransformer mapLower k "8080")) "8080"
    = EnvVarTransformer mapLower k "8080".
Proof.
  intros k mapLower. split; [by vm_compute |].
  apply (EnvVarTransformer_idempotent mapLower k "8080"). by vm_compute.
Defined.

Lemma load_sample :
  let k := Sample2.koanf in
  let appConfig := Sample.config in
  let logs := snd (LoadAppConfig k) in
  LoadAppConfig k = (Some appConfig, logs) /\
  file_Load k = None /\
  0 < Port appConfig /\
  Records appConfig = Records (Unmarshal k) /\
  Pushover appConfig = Pushover (Unmarshal k) /\
  (0 < Port (Unmarshal k) -> appConfig = Unmarshal k) /\
  (Port (Unmarshal k) <= 0 -> Port appConfig = DEFAULT_PORT).
Proof.
  intros k appConfig logs. split; [reflexivity |].
  apply (LoadAppConfig_port_positive k appConfig logs). reflexivity.
Defined.

Lemma default_commit_sample :
  let form := Sample2.form in
  let ip := [203; 0; 113; 5] in
  form !! "commit" = None /\
  validateIp (updateRequest_of form) = Ok ip /\
  Records Sample.config !! FormValue form "hostname" = Some Sample.example_com /\
  exists t input err calls,
    nicUpdateHandler Sample.world Sample.working Sample.config form []
      = (tt, ([] ++ t)%list) /\
    is_change_for (ZoneId Sample.example_com) (FormValue form "hostname")
      (net.String_ (Some ip)) (Ttl Sample.example_com) input /\
    remote_calls t = (input, err) :: calls.
Proof.
  intros form ip.
  split; [by vm_compute |]. split; [by vm_compute |]. split; [by vm_compute |].
  apply (request_without_commit_is_sent Sample.world Sample.working Sample.config
           form ip Sample.example_com []); by vm_compute.
Defined.
